(** * Ductulator: the duct-sizing and run-loss calculations of [Page]

    The page keeps its inputs as strings ([useState]) and recomputes two
    memoised values from them: [calc] (area, airflow, velocity, friction
    rate) and [run] (equivalent length and pressure drop of a duct run).

    The arithmetic of the source is JavaScript's, on IEEE-754 binary64
    numbers.  The embedding below is written over an interface
    [JsNumber] of the operators and built-ins the source uses, and is run
    at the instance [Float64]: binary64 (Rocq's primitive floats), with
    NaN, infinities and signed zeros; [Math.pow] and [Math.log10], whose
    results ECMAScript leaves to the implementation, are parameters.
    The real numbers appear only as the values of finite binary64
    numbers, to measure rounding errors. *)

From Stdlib Require Import ZArith QArith Bool List String Ascii.
From Stdlib Require Import Floats Reals Lra Lia.
From Stdlib Require DecimalString.
Import ListNotations.

Set Warnings "-inexact-float".
Local Open Scope string_scope.

(** ** The numbers of the source *)

Declare Scope js_scope.
Delimit Scope js_scope with js.

Class JsNumber (num : Type) : Type := {
  (** a numeric literal of the source text, given by its exact value *)
  lit : Q -> num;
  add : num -> num -> num;
  mul : num -> num -> num;
  div : num -> num -> num;
  (** [x < y] and [x <= y]; [x > y] is [y < x] *)
  ltb : num -> num -> bool;
  leb : num -> num -> bool;
  (** ToBoolean on a number, as [||] applies it *)
  truthy : num -> bool;
  (** [Number(v)] on a string *)
  Number : string -> num;
  Number_isFinite : num -> bool;
  Math_PI : num;
  Math_pow : num -> num -> num;
  Math_log10 : num -> num;
  Math_sqrt : num -> num
}.

Notation "# q" := (lit q%Q) (at level 1, format "# q") : js_scope.
Infix "+" := add : js_scope.
Infix "*" := mul : js_scope.
Infix "/" := div : js_scope.
Infix "<?" := ltb : js_scope.
Infix "<=?" := leb : js_scope.
Notation "x >? y" := (ltb y x) (at level 70, no associativity) : js_scope.

(** ** The types of the page *)

(** The tab ["run"] is [runTab] here, [run] being the memoised value. *)
Inductive Tab := duct | runTab.
Inductive Shape := round | rect.
Inductive Material := galv | pvc | flex.
Inductive Mode := fromSize | fromCfm.

Inductive FittingKey :=
  | elbow90 | elbow45 | teeThru | teeBranch | wye45 | boot | transition.

Definition FittingKey_eqb (a b : FittingKey) : bool :=
  match a, b with
  | elbow90, elbow90 | elbow45, elbow45 | teeThru, teeThru
  | teeBranch, teeBranch | wye45, wye45 | boot, boot
  | transition, transition => true
  | _, _ => false
  end.

(** [Object.keys(FITTING_LABELS)]: the keys in the order the literal
    lists them. *)
Definition FITTING_KEYS : list FittingKey :=
  [elbow90; elbow45; teeThru; teeBranch; wye45; boot; transition].

Definition FITTING_LABELS (k : FittingKey) : string :=
  match k with
  | elbow90 => "90° Elbow"
  | elbow45 => "45° Elbow"
  | teeThru => "Tee (Through)"
  | teeBranch => "Tee (Branch)"
  | wye45 => "Wye 45°"
  | boot => "Boot / Register"
  | transition => "Transition"
  end.

(** The defaults are whole numbers of feet. *)
Definition DEFAULT_EQ_LEN_FT (k : FittingKey) : Z :=
  match k with
  | elbow90 => 25
  | elbow45 => 15
  | teeThru => 20
  | teeBranch => 60
  | wye45 => 30
  | boot => 20
  | transition => 15
  end%Z.

(** [{ ...p, [k]: v }]: a record of strings with one key replaced. *)
Definition set_key (p : FittingKey -> string) (k : FittingKey) (v : string)
  : FittingKey -> string :=
  fun k' => if FittingKey_eqb k' k then v else p k'.

(** The state of the page: every [useState] cell. *)
Record Inputs := {
  tab : Tab;
  mode : Mode;
  shape : Shape;
  material : Material;
  targetFpm : string;
  roundDia : string;
  rectW : string;
  rectH : string;
  cfm : string;
  straightLenFt : string;
  fitCount : FittingKey -> string;
  fitEqLen : FittingKey -> string
}.

(** [String(n)] for the whole numbers of [DEFAULT_EQ_LEN_FT]. *)
Definition String_of_Z (n : Z) : string :=
  DecimalString.NilZero.string_of_int (Z.to_int n).

(** The initial values of the [useState] cells. *)
Definition initial : Inputs := {|
  tab := duct;
  mode := fromSize;
  shape := round;
  material := galv;
  targetFpm := "700";
  roundDia := "10";
  rectW := "10";
  rectH := "8";
  cfm := "800";
  straightLenFt := "50";
  fitCount := fun k =>
    match k with
    | elbow90 => "2" | elbow45 => "0" | teeThru => "0" | teeBranch => "0"
    | wye45 => "0" | boot => "1" | transition => "0"
    end;
  fitEqLen := fun k => String_of_Z (DEFAULT_EQ_LEN_FT k)
|}.

(** ** The calculations, over any [JsNumber] *)

Section Calculator.
Context {num : Type} {J : JsNumber num}.
Local Open Scope js_scope.

(** [x || y] on numbers *)
Definition or_else (x y : num) : num := if truthy x then x else y.

Definition toNum (v : string) : num :=
  let n := Number v in
  if Number_isFinite n then n else #0.

Definition roundAreaIn2 (dIn : num) : num :=
  let r := dIn / #2 in
  Math_PI * r * r.

Definition equivalentRoundIn (a b : num) : num :=
  if (a <=? #0) || (b <=? #0) then #0
  else #1.3 * Math_pow (a * b) #0.625 / Math_pow (a + b) #0.25.

Definition frictionFactorDarcy (Re eps D : num) : num :=
  if (Re <=? #0) || (D <=? #0) then #0
  else if Re <? #2300 then #64 / Re
  else
    let term := eps / (#3.7 * D) + #5.74 / Math_pow Re #0.9 in
    #0.25 / Math_pow (Math_log10 term) #2.

Definition inToM (inches : num) : num := inches * #0.0254.
Definition ftToM (ft : num) : num := ft * #0.3048.
Definition paToInWg (pa : num) : num := pa / #249.0889.
Definition cfmToM3s (cfm : num) : num := cfm * #0.00047194745.

Record CalcResult := {
  usedCfm : num;
  areaIn2 : num;
  areaFt2 : num;
  velFpm : num;
  Dh_in : num;
  eqRound : num;
  dpInWgPer100ft : num;
  idealRoundDia : num
}.

(** Roughness in metres. *)
Definition roughness (m : Material) : num :=
  match m with
  | galv => #0.00015
  | pvc => #0.0000015
  | flex => #0.0003
  end.

(** The first [if] of [calc]: it assigns [areaIn2] and [usedCfm]. *)
Definition area_and_cfm (s : Inputs) (FPM : num) : num * num :=
  match mode s with
  | fromSize =>
      let areaIn2 :=
        match shape s with
        | round =>
            let d := toNum (roundDia s) in
            if d >? #0 then roundAreaIn2 d else #0
        | rect =>
            let w := toNum (rectW s) in
            let h := toNum (rectH s) in
            if (w >? #0) && (h >? #0) then w * h else #0
        end in
      let areaFt2 := areaIn2 / #144 in
      let usedCfm := if areaFt2 >? #0 then areaFt2 * FPM else #0 in
      (areaIn2, usedCfm)
  | fromCfm =>
      let usedCfm := toNum (cfm s) in
      let areaFt2 := if FPM >? #0 then usedCfm / FPM else #0 in
      let areaIn2 := areaFt2 * #144 in
      (areaIn2, usedCfm)
  end.

(** The second [if] of [calc]: it assigns [Dh_in] and [eqRound]. *)
Definition geometry (s : Inputs) : num * num :=
  match shape s with
  | round => (or_else (toNum (roundDia s)) #0, #0)
  | rect =>
      let w := toNum (rectW s) in
      let h := toNum (rectH s) in
      let Dh_in := if (w >? #0) && (h >? #0) then (#2 * w * h) / (w + h) else #0 in
      (Dh_in, equivalentRoundIn w h)
  end.

Definition calc (s : Inputs) : CalcResult :=
  let FPM := toNum (targetFpm s) in
  let rho := #1.2 in
  let mu := #1.81e-5 in
  let eps := roughness (material s) in
  let areaIn2 := fst (area_and_cfm s FPM) in
  let usedCfm := snd (area_and_cfm s FPM) in
  let areaFt2 := areaIn2 / #144 in
  let Dh_in := fst (geometry s) in
  let eqRound := snd (geometry s) in
  let velFpm := if areaFt2 >? #0 then usedCfm / areaFt2 else #0 in
  let Q := cfmToM3s usedCfm in
  let A := if areaIn2 >? #0 then areaIn2 * (#0.0254 * #0.0254) else #0 in
  let V := if A >? #0 then Q / A else #0 in
  let D := inToM Dh_in in
  let Re := if mu >? #0 then (rho * V * D) / mu else #0 in
  let f := frictionFactorDarcy Re eps D in
  let L := ftToM #100 in
  let dpPaPer100ft := if D >? #0 then f * (L / D) * (rho * V * V / #2) else #0 in
  let dpInWgPer100ft := paToInWg dpPaPer100ft in
  let idealRoundDia :=
    if areaIn2 >? #0 then Math_sqrt ((#4 * areaIn2) / Math_PI) else #0 in
  {| usedCfm := usedCfm;
     areaIn2 := areaIn2;
     areaFt2 := areaFt2;
     velFpm := velFpm;
     Dh_in := Dh_in;
     eqRound := eqRound;
     dpInWgPer100ft := dpInWgPer100ft;
     idealRoundDia := idealRoundDia |}.

Record Item := {
  key : FittingKey;
  label : string;
  count : num;
  eq : num;
  eqTotal : num
}.

Record RunResult := {
  items : list Item;
  straight : num;
  fittingsEq : num;
  totalEqLen : num;
  frictionPer100 : num;
  totalDrop : num
}.

(** The callback of [map] in [run]. *)
Definition item_of (s : Inputs) (k : FittingKey) : Item :=
  let count := toNum (fitCount s k) in
  let eq := toNum (fitEqLen s k) in
  let eqTotal := count * eq in
  {| key := k; label := FITTING_LABELS k; count := count; eq := eq;
     eqTotal := eqTotal |}.

Definition run (s : Inputs) : RunResult :=
  let straight := toNum (straightLenFt s) in
  let items := map (item_of s) FITTING_KEYS in
  let fittingsEq := fold_left (fun sum it => sum + eqTotal it) items #0 in
  let totalEqLen := straight + fittingsEq in
  let frictionPer100 := dpInWgPer100ft (calc s) in
  let totalDrop := frictionPer100 * (totalEqLen / #100) in
  {| items := items; straight := straight; fittingsEq := fittingsEq;
     totalEqLen := totalEqLen; frictionPer100 := frictionPer100;
     totalDrop := totalDrop |}.

(** An input that [toNum] reads as a positive number: the guards of
    [calc] test [> 0] on what [toNum] returns, so zero, a negative
    number and text that is not a number all fail it. *)
Definition positive_input (v : string) : bool := toNum v >? #0.


End Calculator.

(** ** [Number(v)]: reading a numeric string

    The host's conversion of a string to a number (ECMAScript's
    StringToNumber): white space is trimmed, the empty string is 0, a
    decimal literal may carry a sign, a fraction and an exponent,
    [0x], [0o] and [0b] literals are unsigned integers, [Infinity] may
    carry a sign, and everything else is NaN.  Strings are sequences of
    bytes here, read as UTF-8. *)

Inductive numeric :=
  | NotNumeric
  | Infinite (neg : bool)
  | Decimal (neg : bool) (m : N) (e : Z).   (* (-1)^neg * m * 10^e *)

Module Reader.
Local Open Scope N_scope.

(** StrWhiteSpaceChar, each character by its bytes: TAB, LF, VT, FF,
    CR, SP, U+00A0, U+1680, U+2000 to U+200A, U+2028, U+2029, U+202F,
    U+205F, U+3000 and U+FEFF. *)
Definition spaces : list (list ascii) :=
  map (map ascii_of_N)
    ([[9]; [10]; [11]; [12]; [13]; [32]; [194; 160]; [225; 154; 128]]
     ++ map (fun b => [226; 128; b])
          [128; 129; 130; 131; 132; 133; 134; 135; 136; 137; 138; 168; 169; 175]
     ++ [[226; 129; 159]; [227; 128; 128]; [239; 187; 191]]).

(** What follows the prefix [p] in [s], if [s] starts with it. *)
Fixpoint after (p s : list ascii) : option (list ascii) :=
  match p, s with
  | [], _ => Some s
  | a :: p, b :: s => if Ascii.eqb a b then after p s else None
  | _ :: _, [] => None
  end.

(** What follows one white space character at the head of [s]. *)
Fixpoint after_space (sp : list (list ascii)) (s : list ascii)
  : option (list ascii) :=
  match sp with
  | [] => None
  | p :: sp =>
      match after p s with
      | Some r => Some r
      | None => after_space sp s
      end
  end.

(** Drops the white space at the head of [s]; [fuel] bounds the number
    of characters dropped, the length of [s] being enough. *)
Fixpoint trim_left (sp : list (list ascii)) (fuel : nat) (s : list ascii)
  : list ascii :=
  match fuel with
  | O => s
  | S fuel =>
      match after_space sp s with
      | Some r => trim_left sp fuel r
      | None => s
      end
  end.

Definition trim (s : list ascii) : list ascii :=
  let s := trim_left spaces (List.length s) s in
  rev (trim_left (map (@rev ascii) spaces) (List.length s) (rev s)).

(** The value of [c] as a digit in [base], if it is one. *)
Definition digit (base : N) (c : ascii) : option N :=
  let n := N_of_ascii c in
  let v :=
    if (48 <=? n) && (n <=? 57) then Some (n - 48)
    else if (97 <=? n) && (n <=? 102) then Some (n - 87)
    else if (65 <=? n) && (n <=? 70) then Some (n - 55)
    else None in
  match v with
  | Some d => if d <? base then Some d else None
  | None => None
  end.

(** Reads the longest run of digits: the value accumulated onto
    [acc], how many digits were read, and what follows them. *)
Fixpoint digits (base : N) (acc : N) (s : list ascii) : N * nat * list ascii :=
  match s with
  | c :: r =>
      match digit base c with
      | Some d =>
          let '(v, k, rest) := digits base (acc * base + d) r in (v, S k, rest)
      | None => (acc, O, s)
      end
  | [] => (acc, O, [])
  end.

Definition sign (s : list ascii) : bool * list ascii :=
  match s with
  | "+"%char :: r => (false, r)
  | "-"%char :: r => (true, r)
  | _ => (false, s)
  end.

(** [ExponentPart], or nothing: the exponent, if the input ends there. *)
Definition exponent (s : list ascii) : option Z :=
  match s with
  | [] => Some 0%Z
  | ("e" | "E")%char :: r =>
      let '(neg, r) := sign r in
      match digits 10 0 r with
      | (v, S _, []) => Some (if neg then (- Z.of_N v)%Z else Z.of_N v)
      | _ => None
      end
  | _ => None
  end.

Definition unsigned_decimal (neg : bool) (s : list ascii) : numeric :=
  let '(m1, k1, r1) := digits 10 0 s in
  let '(m, k2, r2) :=
    match r1 with
    | "."%char :: r => digits 10 m1 r
    | _ => (m1, O, r1)
    end in
  match (k1 + k2)%nat, exponent r2 with
  | S _, Some e => Decimal neg m (e - Z.of_nat k2)
  | _, _ => NotNumeric
  end.

Definition radix (base : N) (s : list ascii) : numeric :=
  match digits base 0 s with
  | (v, S _, []) => Decimal false v 0
  | _ => NotNumeric
  end.

Definition read (v : string) : numeric :=
  match trim (list_ascii_of_string v) with
  | [] => Decimal false 0 0
  | "0"%char :: ("x" | "X")%char :: r => radix 16 r
  | "0"%char :: ("o" | "O")%char :: r => radix 8 r
  | "0"%char :: ("b" | "B")%char :: r => radix 2 r
  | s =>
      let '(neg, r) := sign s in
      if String.eqb (string_of_list_ascii r) "Infinity" then Infinite neg
      else unsigned_decimal neg r
  end.

(** The exact value of a decimal, for a nonzero mantissa. *)
Definition value (neg : bool) (m : N) (e : Z) : Q :=
  let n := if neg then (- Z.of_N m)%Z else Z.of_N m in
  (inject_Z n * inject_Z 10 ^ e)%Q.

End Reader.

(** ** Binary64

    [Math.pow] and [Math.log10] are the host's: ECMAScript asks only for
    an approximation of the mathematical result. *)

Class Libm (num : Type) : Type := {
  libm_pow : num -> num -> num;
  libm_log10 : num -> num
}.

Module F64.

(** The double nearest to a rational [n/d] (ties to even): one
    correctly rounded division of the two integers. *)
Definition of_Q (q : Q) : float :=
  let d := S754_finite false (Qden q) 0 in
  match Qnum q with
  | Z0 => zero
  | Zpos n => SF2Prim (SFdiv prec emax (S754_finite false n 0) d)
  | Zneg n => SF2Prim (SFdiv prec emax (S754_finite true n 0) d)
  end.

Definition Number (v : string) : float :=
  match Reader.read v with
  | NotNumeric => nan
  | Infinite neg => if neg then neg_infinity else infinity
  | Decimal neg N0 _ => if neg then neg_zero else zero
  | Decimal neg m e => of_Q (Reader.value neg m e)
  end.

(** 0, -0 and NaN are falsy. *)
Definition truthy (x : float) : bool := negb (is_zero x || is_nan x).

Definition PI : float := 0x1.921fb54442d18p+1%float.

(** [+0], the positive numbers and [+infinity]. *)
Definition nonneg (x : spec_float) : Prop :=
  match x with
  | S754_zero false | S754_infinity false | S754_finite false _ _ => True
  | _ => False
  end.

(** Equality of numbers as ECMAScript's SameValueZero has it: [+0] and
    [-0] are equal, and NaN equals NaN. *)
Definition SameValueZero (x y : float) : bool :=
  PrimFloat.eqb x y || (is_nan x && is_nan y).





End F64.

#[global] Instance Float64 (m : Libm float) : JsNumber float := {|
  lit := F64.of_Q;
  add := PrimFloat.add;
  mul := PrimFloat.mul;
  div := PrimFloat.div;
  ltb := PrimFloat.ltb;
  leb := PrimFloat.leb;
  truthy := F64.truthy;
  Number := F64.Number;
  Number_isFinite := PrimFloat.is_finite;
  Math_PI := F64.PI;
  Math_pow := @libm_pow _ m;
  Math_log10 := @libm_log10 _ m;
  Math_sqrt := PrimFloat.sqrt
|}.

(** ** A reference [Math.pow] and [Math.log10] for binary64

    One host among those ECMAScript allows: the mathematical value is
    computed in fixed point with 192 fractional bits and rounded once.
    The theorems below hold for every host; this one runs the model. *)

Module Libm64.
Local Open Scope Z_scope.

(** Fixed point: an integer [a] stands for [a / 2^bits]. *)
Definition bits : Z := 192.
Definition one : Z := 2 ^ bits.
Definition fmul (a b : Z) : Z := Z.shiftr (a * b) bits.
Definition fdiv (a b : Z) : Z := Z.shiftl a bits / b.

(** [atanh z = z + z^3/3 + z^5/5 + ...], for [0 <= z <= 1/3];
    [p] is the power of [z] of the next term and [k] its exponent. *)
Fixpoint atanh_series (fuel : nat) (z2 p k acc : Z) : Z :=
  match fuel with
  | O => acc
  | S fuel => atanh_series fuel z2 (fmul p z2) (k + 2) (acc + p / k)
  end.

Definition atanh (z : Z) : Z := atanh_series 64 (fmul z z) z 1 0.

(** [ln y = 2 atanh ((y - 1) / (y + 1))], for [1 <= y <= 2]. *)
Definition ln_1_2 (y : Z) : Z := 2 * atanh (fdiv (y - one) (y + one)).

Definition ln2 : Z := Eval vm_compute in ln_1_2 (2 * one).

(** [ln (m * 2^e)]: the mantissa is scaled into [1, 2). *)
Definition ln (m : positive) (e : Z) : Z :=
  let d := Z.log2 (Zpos m) in
  (e + d) * ln2 + ln_1_2 (Z.shiftl (Zpos m) (bits - d)).

Definition ln10 : Z := Eval vm_compute in ln 10 0.

(** [exp r = 1 + r + r^2/2! + ...], for [0 <= r < ln 2];
    [t] is the next term and [i] the index after it. *)
Fixpoint exp_series (fuel : nat) (r t i acc : Z) : Z :=
  match fuel with
  | O => acc
  | S fuel => exp_series fuel r (fmul t r / i) (i + 1) (acc + t)
  end.

(** [exp t] as a rational: [t = k ln 2 + r], [exp t = 2^k exp r]. *)
Definition exp (t : Z) : Q :=
  let k := t / ln2 in
  let v := exp_series 64 (t - k * ln2) one 1 0 in
  let e := k - bits in
  if 0 <=? e then Qmake (Z.shiftl v e) 1 else Qmake v (Z.to_pos (2 ^ (- e))).

Definition is_integer (m : positive) (e : Z) : bool :=
  (0 <=? e) || (Zpos m mod 2 ^ (- e) =? 0).

Definition is_odd_integer (m : positive) (e : Z) : bool :=
  is_integer m e && Z.odd (Z.shiftl (Zpos m) e).

Definition odd_integer (y : spec_float) : bool :=
  match y with
  | S754_finite _ m e => is_odd_integer m e
  | _ => false
  end.

Definition signed (neg : bool) (x : float) : float :=
  if neg then PrimFloat.opp x else x.

(** [|x|^y] for finite nonzero [x = m 2^e] and [y = (-1)^sy my 2^ey]:
    [exp (y ln |x|)], beyond the range of binary64 when the exponent of
    the result leaves it. *)
Definition pow_finite (m : positive) (e : Z) (sy : bool) (my : positive) (ey : Z) : float :=
  let t := Z.shiftl (Zpos my * ln m e) ey in
  let t := if sy then - t else t in
  if 1100 * one <? t then infinity
  else if t <? -1100 * one then zero
  else F64.of_Q (exp t).

(** [Math.pow], by the cases of ECMAScript's Number::exponentiate. *)
Definition pow (x y : float) : float :=
  match Prim2SF y, Prim2SF x with
  | S754_nan, _ => nan
  | S754_zero _, _ => PrimFloat.one
  | _, S754_nan => nan
  | sy, S754_infinity sx =>
      let neg := PrimFloat.ltb y zero in
      signed (sx && odd_integer sy) (if neg then zero else infinity)
  | sy, S754_zero sx =>
      let neg := PrimFloat.ltb y zero in
      signed (sx && odd_integer sy) (if neg then infinity else zero)
  | S754_infinity sy, S754_finite _ _ _ =>
      let a := PrimFloat.abs x in
      if PrimFloat.eqb a PrimFloat.one then nan
      else if xorb (PrimFloat.ltb PrimFloat.one a) sy then infinity else zero
  | S754_finite sy my ey, S754_finite sx m e =>
      if sx && negb (is_integer my ey) then nan
      else signed (sx && is_odd_integer my ey) (pow_finite m e sy my ey)
  end.

(** [Math.log10]. *)
Definition log10 (x : float) : float :=
  match Prim2SF x with
  | S754_nan => nan
  | S754_zero _ => neg_infinity
  | S754_infinity false => infinity
  | S754_infinity true => nan
  | S754_finite true _ _ => nan
  | S754_finite false m e =>
      let l := ln m e in
      match l with
      | Z0 => zero
      | Zpos p => SF2Prim (SFdiv prec emax (S754_finite false p 0) (S754_finite false (Z.to_pos ln10) 0))
      | Zneg p => SF2Prim (SFdiv prec emax (S754_finite true p 0) (S754_finite false (Z.to_pos ln10) 0))
      end
  end.

End Libm64.

Definition libm64 : Libm float :=
  {| libm_pow := Libm64.pow; libm_log10 := Libm64.log10 |}.

(** Two states that differ at most in the unit equivalent length of
    the fitting kind [k]. *)
Definition differ_only_in_fitEqLen (k : FittingKey) (s s' : Inputs) : Prop :=
  tab s' = tab s /\ mode s' = mode s /\ shape s' = shape s /\
  material s' = material s /\ targetFpm s' = targetFpm s /\
  roundDia s' = roundDia s /\ rectW s' = rectW s /\ rectH s' = rectH s /\
  cfm s' = cfm s /\ straightLenFt s' = straightLenFt s /\
  (forall k', fitCount s' k' = fitCount s k') /\
  (forall k', k' <> k -> fitEqLen s' k' = fitEqLen s k').

(** ** The setters of the [useState] cells *)

Definition setMode (v : Mode) (s : Inputs) : Inputs :=
  {| tab := tab s; mode := v; shape := shape s; material := material s;
     targetFpm := targetFpm s; roundDia := roundDia s; rectW := rectW s;
     rectH := rectH s; cfm := cfm s; straightLenFt := straightLenFt s;
     fitCount := fitCount s; fitEqLen := fitEqLen s |}.

Definition setShape (v : Shape) (s : Inputs) : Inputs :=
  {| tab := tab s; mode := mode s; shape := v; material := material s;
     targetFpm := targetFpm s; roundDia := roundDia s; rectW := rectW s;
     rectH := rectH s; cfm := cfm s; straightLenFt := straightLenFt s;
     fitCount := fitCount s; fitEqLen := fitEqLen s |}.

Definition setMaterial (v : Material) (s : Inputs) : Inputs :=
  {| tab := tab s; mode := mode s; shape := shape s; material := v;
     targetFpm := targetFpm s; roundDia := roundDia s; rectW := rectW s;
     rectH := rectH s; cfm := cfm s; straightLenFt := straightLenFt s;
     fitCount := fitCount s; fitEqLen := fitEqLen s |}.

Definition setTargetFpm (v : string) (s : Inputs) : Inputs :=
  {| tab := tab s; mode := mode s; shape := shape s; material := material s;
     targetFpm := v; roundDia := roundDia s; rectW := rectW s;
     rectH := rectH s; cfm := cfm s; straightLenFt := straightLenFt s;
     fitCount := fitCount s; fitEqLen := fitEqLen s |}.

Definition setRoundDia (v : string) (s : Inputs) : Inputs :=
  {| tab := tab s; mode := mode s; shape := shape s; material := material s;
     targetFpm := targetFpm s; roundDia := v; rectW := rectW s;
     rectH := rectH s; cfm := cfm s; straightLenFt := straightLenFt s;
     fitCount := fitCount s; fitEqLen := fitEqLen s |}.

Definition setRectW (v : string) (s : Inputs) : Inputs :=
  {| tab := tab s; mode := mode s; shape := shape s; material := material s;
     targetFpm := targetFpm s; roundDia := roundDia s; rectW := v;
     rectH := rectH s; cfm := cfm s; straightLenFt := straightLenFt s;
     fitCount := fitCount s; fitEqLen := fitEqLen s |}.

Definition setRectH (v : string) (s : Inputs) : Inputs :=
  {| tab := tab s; mode := mode s; shape := shape s; material := material s;
     targetFpm := targetFpm s; roundDia := roundDia s; rectW := rectW s;
     rectH := v; cfm := cfm s; straightLenFt := straightLenFt s;
     fitCount := fitCount s; fitEqLen := fitEqLen s |}.

Definition setCfm (v : string) (s : Inputs) : Inputs :=
  {| tab := tab s; mode := mode s; shape := shape s; material := material s;
     targetFpm := targetFpm s; roundDia := roundDia s; rectW := rectW s;
     rectH := rectH s; cfm := v; straightLenFt := straightLenFt s;
     fitCount := fitCount s; fitEqLen := fitEqLen s |}.

Definition setStraightLenFt (v : string) (s : Inputs) : Inputs :=
  {| tab := tab s; mode := mode s; shape := shape s; material := material s;
     targetFpm := targetFpm s; roundDia := roundDia s; rectW := rectW s;
     rectH := rectH s; cfm := cfm s; straightLenFt := v;
     fitCount := fitCount s; fitEqLen := fitEqLen s |}.

(** [setFitCount((p) => ({ ...p, [k]: v }))] *)
Definition setFitCount (k : FittingKey) (v : string) (s : Inputs) : Inputs :=
  {| tab := tab s; mode := mode s; shape := shape s; material := material s;
     targetFpm := targetFpm s; roundDia := roundDia s; rectW := rectW s;
     rectH := rectH s; cfm := cfm s; straightLenFt := straightLenFt s;
     fitCount := set_key (fitCount s) k v; fitEqLen := fitEqLen s |}.

(** [setFitEqLen((p) => ({ ...p, [k]: v }))] *)
Definition setFitEqLen (k : FittingKey) (v : string) (s : Inputs) : Inputs :=
  {| tab := tab s; mode := mode s; shape := shape s; material := material s;
     targetFpm := targetFpm s; roundDia := roundDia s; rectW := rectW s;
     rectH := rectH s; cfm := cfm s; straightLenFt := straightLenFt s;
     fitCount := fitCount s; fitEqLen := set_key (fitEqLen s) k v |}.

(** ** What the page renders, and the locals of [calc]

    The text boxes of the card of shared inputs: the velocity box is
    always rendered, the airflow box under [mode === "fromCfm"], and of
    the size boxes the diameter under [shape === "round"], the width
    and the height otherwise. *)
Inductive SizingBox := velocityBox | cfmBox | roundDiaBox | rectWBox | rectHBox.

(** The cell a box shows and edits. *)
Definition box_value (s : Inputs) (b : SizingBox) : string :=
  match b with
  | velocityBox => targetFpm s
  | cfmBox => cfm s
  | roundDiaBox => roundDia s
  | rectWBox => rectW s
  | rectHBox => rectH s
  end.

Definition box_rendered (s : Inputs) (b : SizingBox) : bool :=
  match b with
  | velocityBox => true
  | cfmBox => match mode s with fromCfm => true | fromSize => false end
  | roundDiaBox => match shape s with round => true | rect => false end
  | rectWBox | rectHBox => match shape s with rect => true | round => false end
  end.

(** The width and the height typed into each other's box. *)
Definition swap_sides (s : Inputs) : Inputs :=
  setRectW (rectH s) (setRectH (rectW s) s).

Section Page.
Context {num : Type} {J : JsNumber num}.
Local Open Scope js_scope.

(** The number under "Eq ft total" in the row of the kind [k], before
    [toFixed]. *)
Definition row_total (s : Inputs) (k : FittingKey) : num :=
  toNum (fitCount s k) * toNum (fitEqLen s k).

(** The locals [V], [D] and [Re] of [calc], in terms of what it
    returns: the air speed in m/s, the hydraulic diameter in metres and
    the Reynolds number. *)
Definition calc_V (s : Inputs) : num :=
  let Q := cfmToM3s (usedCfm (calc s)) in
  let A :=
    if areaIn2 (calc s) >? #0 then areaIn2 (calc s) * (#0.0254 * #0.0254)
    else #0 in
  if A >? #0 then Q / A else #0.

Definition calc_D (s : Inputs) : num := inToM (Dh_in (calc s)).

Definition calc_Re (s : Inputs) : num :=
  let rho := #1.2 in
  let mu := #1.81e-5 in
  if mu >? #0 then (rho * calc_V s * calc_D s) / mu else #0.

End Page.

(** * Properties *)

(** ** The reader and the literals, on examples *)

Example read_decimals :
  map Reader.read ["700"; " -12.50e+3 "; ".5"; "5."; "5.e1"; "1E-3"; "+0"; ""]
  = [Decimal false 700 0; Decimal true 1250 1; Decimal false 5 (-1);
     Decimal false 5 0; Decimal false 5 1; Decimal false 1 (-3);
     Decimal false 0 0; Decimal false 0 0].
Proof. reflexivity. Qed.

Example read_radix :
  map Reader.read ["0x1F"; "0XfF"; "0o17"; "0b101"]
  = [Decimal false 31 0; Decimal false 255 0; Decimal false 15 0;
     Decimal false 5 0].
Proof. reflexivity. Qed.

Example read_infinity :
  map Reader.read ["Infinity"; "+Infinity"; "-Infinity"]
  = [Infinite false; Infinite false; Infinite true].
Proof. reflexivity. Qed.

Example read_not_numeric :
  map Reader.read
    ["abc"; "12px"; "."; "1e"; "-0x10"; "0x"; "1 2"; "--1"; "e5"; "1_000";
     "infinity"; "10n"; "+"]
  = repeat NotNumeric 13.
Proof. reflexivity. Qed.

(** A no-break space (U+00A0) and a line feed around the digits. *)
Example read_trims_unicode_space :
  Reader.read
    (String (ascii_of_N 194) (String (ascii_of_N 160)
       (String "1" (String "2" (String (ascii_of_N 10) EmptyString)))))
  = Decimal false 12 0.
Proof. reflexivity. Qed.

(** The literals of the source are read as Rocq reads them. *)
Example literals :
  map F64.of_Q [0; 2; 1.3; 0.625; 0.25; 64; 2300; 3.7; 5.74; 0.9; 0.0254;
                0.3048; 249.0889; 0.00047194745; 1.2; 1.81e-5; 0.00015;
                0.0000015; 0.0003; 144; 100; 4]%Q
  = [0; 2; 1.3; 0.625; 0.25; 64; 2300; 3.7; 5.74; 0.9; 0.0254;
     0.3048; 249.0889; 0.00047194745; 1.2; 1.81e-5; 0.00015;
     0.0000015; 0.0003; 144; 100; 4]%float.
Proof. vm_compute. reflexivity. Qed.

(** So are numeric strings, up to the largest and the smallest doubles
    and the halfway cases between two of them. *)
Example numbers_read :
  map F64.Number
    ["10"; " 8 "; "-50"; "0.1"; "1e200"; "1e-320"; "1e400"; "-1e400";
     "1.7976931348623157e308"; "2.2250738585072011e-308";
     "9007199254740993"; "2.4703282292062328e-324"; "-0"; ""; "0x10"; "abc"]
  = [10; 8; -50; 0.1; 1e200; 1e-320; infinity; neg_infinity;
     1.7976931348623157e308; 2.2250738585072011e-308;
     9007199254740993; 2.4703282292062328e-324; -0; 0; 16; nan]%float.
Proof. vm_compute. reflexivity. Qed.

(** The reference host against the exact cases: square roots, squares,
    whole powers of ten and their logarithms. *)
Example libm64_exact_cases :
  (map (fun x => Libm64.pow x 0.5) [1; 2; 10; 1000; 0.001; 1e300; 3]
   = map PrimFloat.sqrt [1; 2; 10; 1000; 0.001; 1e300; 3] /\
   map (fun x => Libm64.pow x 2) [2; 10; 0.5; -3; 1.1; -0.7]
   = map (fun x => x * x) [2; 10; 0.5; -3; 1.1; -0.7] /\
   map Libm64.log10 [1; 10; 1000; 1e300; 0.001; 0; infinity]
   = [0; 1; 3; 300; -3; neg_infinity; infinity] /\
   map (fun y => Libm64.pow 10 y) [0; 1; 2; 22; -1; -5]
   = [1; 10; 100; 1e22; 0.1; 1e-5])%float.
Proof. vm_compute. repeat split. Qed.

(** ** The structure of [calc] and [run], over any numbers *)

Section CalculatorFacts.
Context {num : Type} {J : JsNumber num}.
Local Open Scope js_scope.

Lemma calc_areaFt2 (s : Inputs) :
  areaFt2 (calc s) = areaIn2 (calc s) / #144.
Proof. reflexivity. Qed.

Lemma calc_velFpm (s : Inputs) :
  velFpm (calc s) =
  if areaFt2 (calc s) >? #0 then usedCfm (calc s) / areaFt2 (calc s) else #0.
Proof. reflexivity. Qed.

Lemma calc_idealRoundDia (s : Inputs) :
  idealRoundDia (calc s) =
  if areaIn2 (calc s) >? #0
  then Math_sqrt ((#4 * areaIn2 (calc s)) / Math_PI) else #0.
Proof. reflexivity. Qed.

(** The friction rate is 0 converted to inches of water whenever the
    hydraulic diameter in metres is not positive. *)
Lemma calc_dp_guard (s : Inputs) :
  (inToM (Dh_in (calc s)) >? #0) = false ->
  dpInWgPer100ft (calc s) = paToInWg #0.
Proof.
  unfold calc; cbn [Dh_in dpInWgPer100ft]. intros ->. reflexivity.
Qed.

Lemma calc_fromSize_round (s : Inputs) :
  mode s = fromSize -> shape s = round ->
  let d := toNum (roundDia s) in
  areaIn2 (calc s) = (if d >? #0 then roundAreaIn2 d else #0) /\
  usedCfm (calc s) =
    (if areaIn2 (calc s) / #144 >? #0
     then areaIn2 (calc s) / #144 * toNum (targetFpm s) else #0).
Proof.
  intros Hm Hs. unfold calc, area_and_cfm; cbn [areaIn2 usedCfm].
  rewrite Hm, Hs. split; reflexivity.
Qed.

Lemma calc_fromSize_rect (s : Inputs) :
  mode s = fromSize -> shape s = rect ->
  let w := toNum (rectW s) in
  let h := toNum (rectH s) in
  areaIn2 (calc s) = (if (w >? #0) && (h >? #0) then w * h else #0) /\
  usedCfm (calc s) =
    (if areaIn2 (calc s) / #144 >? #0
     then areaIn2 (calc s) / #144 * toNum (targetFpm s) else #0).
Proof.
  intros Hm Hs. unfold calc, area_and_cfm; cbn [areaIn2 usedCfm].
  rewrite Hm, Hs. split; reflexivity.
Qed.


Lemma calc_fromCfm (s : Inputs) :
  mode s = fromCfm ->
  let FPM := toNum (targetFpm s) in
  usedCfm (calc s) = toNum (cfm s) /\
  areaIn2 (calc s) = (if FPM >? #0 then toNum (cfm s) / FPM else #0) * #144.
Proof.
  intros Hm. unfold calc, area_and_cfm; cbn [areaIn2 usedCfm].
  rewrite Hm. split; reflexivity.
Qed.

Lemma calc_round_geometry (s : Inputs) :
  shape s = round ->
  Dh_in (calc s) = or_else (toNum (roundDia s)) #0 /\ eqRound (calc s) = #0.
Proof.
  intros Hs. unfold calc, geometry; cbn [Dh_in eqRound].
  rewrite Hs. split; reflexivity.
Qed.

Lemma calc_rect_geometry (s : Inputs) :
  shape s = rect ->
  let w := toNum (rectW s) in
  let h := toNum (rectH s) in
  Dh_in (calc s) =
    (if (w >? #0) && (h >? #0) then (#2 * w * h) / (w + h) else #0) /\
  eqRound (calc s) = equivalentRoundIn w h.
Proof.
  intros Hs. unfold calc, geometry; cbn [Dh_in eqRound].
  rewrite Hs. split; reflexivity.
Qed.

(** [calc] reads the sizing cells only. *)
Lemma calc_ext (s s' : Inputs) :
  mode s' = mode s -> shape s' = shape s -> material s' = material s ->
  targetFpm s' = targetFpm s -> roundDia s' = roundDia s ->
  rectW s' = rectW s -> rectH s' = rectH s -> cfm s' = cfm s ->
  calc s' = calc s.
Proof.
  intros Hm Hs Hmat Hv Hd Hw Hh Hc.
  unfold calc, area_and_cfm, geometry.
  rewrite Hm, Hs, Hmat, Hv, Hd, Hw, Hh, Hc. reflexivity.
Qed.

Lemma frictionFactorDarcy_guard (Re eps D : num) :
  (Re <=? #0) = true \/ (D <=? #0) = true ->
  frictionFactorDarcy Re eps D = #0.
Proof.
  unfold frictionFactorDarcy. intros [-> | ->]; [|rewrite orb_true_r]; reflexivity.
Qed.

Lemma equivalentRoundIn_guard (a b : num) :
  (a <=? #0) = true \/ (b <=? #0) = true -> equivalentRoundIn a b = #0.
Proof.
  unfold equivalentRoundIn. intros [-> | ->]; [|rewrite orb_true_r]; reflexivity.
Qed.

(** The sum that [reduce] computes, written out. *)
Lemma run_fittingsEq (s : Inputs) :
  let c k := toNum (fitCount s k) * toNum (fitEqLen s k) in
  fittingsEq (run s) =
  #0 + c elbow90 + c elbow45 + c teeThru + c teeBranch + c wye45 + c boot
  + c transition.
Proof. reflexivity. Qed.

Lemma run_items (s : Inputs) : items (run s) = map (item_of s) FITTING_KEYS.
Proof. reflexivity. Qed.

Lemma run_totals (s : Inputs) :
  totalEqLen (run s) = toNum (straightLenFt s) + fittingsEq (run s) /\
  totalDrop (run s) = dpInWgPer100ft (calc s) * (totalEqLen (run s) / #100).
Proof. split; reflexivity. Qed.

(** The entries of two states agree wherever the two cells of a kind do. *)
Lemma item_of_ext (s s' : Inputs) (k : FittingKey) :
  fitCount s' k = fitCount s k -> fitEqLen s' k = fitEqLen s k ->
  item_of s' k = item_of s k.
Proof. unfold item_of. intros -> ->. reflexivity. Qed.

End CalculatorFacts.

(** ** Binary64: signs and comparisons

    The primitive operations are specified on [spec_float]; the facts
    below are read off that specification. *)

Module F64Facts.

(** The cases of a number: the two zeros, the two infinities, NaN, and
    the finite numbers of either sign. *)
Ltac sf_cases x := destruct (Prim2SF x) as [[|] | [|] | | [|] ? ?].

Lemma ltb_SF (x y : float) : PrimFloat.ltb x y = SFltb (Prim2SF x) (Prim2SF y).
Proof. apply ltb_spec. Qed.

Lemma leb_SF (x y : float) : PrimFloat.leb x y = SFleb (Prim2SF x) (Prim2SF y).
Proof. apply leb_spec. Qed.

Lemma zero_SF : Prim2SF zero = S754_zero false.
Proof. reflexivity. Qed.

(** Comparing in the other direction. *)
Lemma SFcompare_antisym (x y : spec_float) :
  SFcompare y x = option_map CompOpp (SFcompare x y).
Proof.
  destruct x as [[|] | [|] | | [|] m e], y as [[|] | [|] | | [|] m' e'];
    try reflexivity; cbn [SFcompare option_map]; f_equal;
    rewrite (Z.compare_antisym e e'); destruct (e ?= e')%Z; cbn [CompOpp];
    try reflexivity;
    rewrite (Pos.compare_cont_antisym m m' Eq); reflexivity.
Qed.

Lemma leb_not_ltb (x y : float) :
  PrimFloat.leb x y = true -> PrimFloat.ltb y x = false.
Proof.
  rewrite leb_SF, ltb_SF. unfold SFleb, SFltb.
  rewrite (SFcompare_antisym (Prim2SF x) (Prim2SF y)).
  destruct (SFcompare (Prim2SF x) (Prim2SF y)) as [[| |] |]; cbn; congruence.
Qed.

Lemma ltb_not_leb (x y : float) :
  PrimFloat.ltb x y = true -> PrimFloat.leb y x = false.
Proof.
  rewrite leb_SF, ltb_SF. unfold SFleb, SFltb.
  rewrite (SFcompare_antisym (Prim2SF x) (Prim2SF y)).
  destruct (SFcompare (Prim2SF x) (Prim2SF y)) as [[| |] |]; cbn; congruence.
Qed.

(** What is at least a positive number is not at most zero. *)
Lemma leb_lit_not_le0 (c x : float) (mc : positive) (ec : Z) :
  Prim2SF c = S754_finite false mc ec ->
  PrimFloat.leb c x = true -> PrimFloat.leb x zero = false.
Proof.
  intros Hc. rewrite !leb_SF, Hc, zero_SF.
  sf_cases x; cbn; congruence.
Qed.

(** Rounding keeps the sign it is given. *)
Lemma round_sign (s : bool) (m e : Z) (l : location) :
  match binary_round_aux prec emax s m e l with
  | S754_zero s' | S754_infinity s' | S754_finite s' _ _ => s' = s
  | S754_nan => True
  end.
Proof.
  unfold binary_round_aux.
  destruct (shr_fexp prec emax m e l) as [mrs e1].
  destruct (shr_fexp prec emax _ e1 loc_Exact) as [mrs' e2].
  destruct (shr_m mrs'); [reflexivity | | exact I].
  destruct (Z.leb _ _); reflexivity.
Qed.


(** *** Finite numbers *)

Lemma is_finite_SF (x : float) :
  is_finite x = true ->
  match Prim2SF x with
  | S754_zero _ | S754_finite _ _ _ => True
  | _ => False
  end.
Proof.
  unfold is_finite, is_nan, is_infinity.
  rewrite !eqb_spec, abs_spec.
  sf_cases x; cbn; try exact (fun _ => I);
    try discriminate.
Qed.

(** *** Numbers that are zero or more *)

Lemma shr_1_nonneg (r : shr_record) :
  (0 <= shr_m r)%Z -> (0 <= shr_m (shr_1 r))%Z.
Proof.
  destruct r as [[|[p|p|]|[p|p|]] r s]; cbn; lia.
Qed.

Lemma iter_shr_1_nonneg (n : positive) (r : shr_record) :
  (0 <= shr_m r)%Z -> (0 <= shr_m (SpecFloat.iter_pos shr_1 n r))%Z.
Proof.
  revert r. induction n as [n IH | n IH |]; intros r Hr; cbn [iter_pos].
  - apply IH, IH, shr_1_nonneg, Hr.
  - apply IH, IH, Hr.
  - apply shr_1_nonneg, Hr.
Qed.

Lemma shr_fexp_nonneg (m e : Z) (l : location) :
  (0 <= m)%Z -> (0 <= shr_m (fst (shr_fexp prec emax m e l)))%Z.
Proof.
  intros Hm. unfold shr_fexp, shr.
  assert (H0 : (0 <= shr_m (shr_record_of_loc m l))%Z)
    by (destruct l as [|[| |]]; exact Hm).
  destruct (_ - e)%Z; cbn [fst]; try exact H0.
  apply iter_shr_1_nonneg, H0.
Qed.

Lemma round_nearest_even_nonneg (m : Z) (l : location) :
  (0 <= m)%Z -> (0 <= round_nearest_even m l)%Z.
Proof.
  intros Hm. destruct l as [|[| |]]; cbn; try destruct (Z.even m); lia.
Qed.

(** Rounding zero or more gives zero or more, with the sign it is given. *)
Lemma round_nonneg (m e : Z) (l : location) :
  (0 <= m)%Z -> F64.nonneg (binary_round_aux prec emax false m e l).
Proof.
  intros Hm. unfold binary_round_aux.
  pose proof (shr_fexp_nonneg m e l Hm) as H1.
  destruct (shr_fexp prec emax m e l) as [mrs e1]; cbn [fst] in H1.
  pose proof (shr_fexp_nonneg _ e1 loc_Exact
                (round_nearest_even_nonneg _ (loc_of_shr_record mrs) H1)) as H2.
  destruct (shr_fexp prec emax _ e1 loc_Exact) as [mrs' e2]; cbn [fst] in H2.
  destruct (shr_m mrs'); [exact I | | lia].
  destruct (Z.leb _ _); exact I.
Qed.

Lemma SFmul_nonneg (x y : spec_float) :
  F64.nonneg x -> F64.nonneg y ->
  match x, y with
  | S754_zero _, S754_infinity _ | S754_infinity _, S754_zero _ => False
  | _, _ => True
  end ->
  F64.nonneg (SFmul prec emax x y).
Proof.
  destruct x as [[|] | [|] | | [|] mx ex], y as [[|] | [|] | | [|] my ey];
    cbn; try tauto.
  intros _ _ _. apply round_nonneg. lia.
Qed.

Lemma SFdiv_lit_nonneg (x : spec_float) (mc : positive) (ec : Z) :
  F64.nonneg x -> F64.nonneg (SFdiv prec emax x (S754_finite false mc ec)).
Proof.
  destruct x as [[|] | [|] | | [|] mx ex]; cbn [F64.nonneg SFdiv xorb]; try tauto.
  intros _. unfold SFdiv_core_binary.
  set (m' := match _ with Zpos _ => _ | Z0 => _ | Zneg _ => _ end).
  assert (Hm' : (0 <= m')%Z).
  { subst m'. destruct (_ - _ - _)%Z; try lia. apply Z.shiftl_nonneg. lia. }
  pose proof (Z.div_pos m' (Zpos mc) Hm' eq_refl) as Hq.
  unfold Z.div in Hq. destruct (Z.div_eucl m' (Zpos mc)) as [q r].
  apply round_nonneg. exact Hq.
Qed.

(** Zero or more and not positive: it is [+0]. *)
Lemma nonneg_not_positive (x : float) :
  F64.nonneg (Prim2SF x) -> PrimFloat.ltb zero x = false -> x = zero.
Proof.
  rewrite ltb_SF, zero_SF. intros Hx Hlt.
  apply Prim2SF_inj. rewrite zero_SF.
  sf_cases x; cbn in *;
    try contradiction; try discriminate. reflexivity.
Qed.

Lemma positive_nonneg (x : float) :
  PrimFloat.ltb zero x = true -> F64.nonneg (Prim2SF x).
Proof.
  rewrite ltb_SF, zero_SF.
  sf_cases x; cbn; try discriminate;
    exact (fun _ => I).
Qed.

(** *** SameValueZero *)

Lemma SameValueZero_refl (x : float) : F64.SameValueZero x x = true.
Proof.
  unfold F64.SameValueZero, is_nan. destruct (PrimFloat.eqb x x); reflexivity.
Qed.

(** [+0] times a finite number is a zero. *)
Lemma SameValueZero_zero_mul (v : float) :
  is_finite v = true -> F64.SameValueZero zero (PrimFloat.mul zero v) = true.
Proof.
  intros Hv. apply is_finite_SF in Hv.
  unfold F64.SameValueZero. rewrite eqb_spec, mul_spec, zero_SF.
  sf_cases v; try contradiction;
    reflexivity.
Qed.

(** *** Signs of products and quotients *)

Lemma SFdiv_round_sign (sx sy : bool) (mx my : positive) (ex ey : Z) :
  match SFdiv prec emax (S754_finite sx mx ex) (S754_finite sy my ey) with
  | S754_zero s' | S754_infinity s' | S754_finite s' _ _ => s' = xorb sx sy
  | S754_nan => True
  end.
Proof.
  cbn [SFdiv].
  destruct (SFdiv_core_binary prec emax (Z.pos mx) ex (Z.pos my) ey)
    as [[mz ez] lz].
  apply round_sign.
Qed.

Lemma SFmul_round_sign (sx sy : bool) (mx my : positive) (ex ey : Z) :
  match SFmul prec emax (S754_finite sx mx ex) (S754_finite sy my ey) with
  | S754_zero s' | S754_infinity s' | S754_finite s' _ _ => s' = xorb sx sy
  | S754_nan => True
  end.
Proof. cbn [SFmul]. apply round_sign. Qed.

(** A positive quotient by a positive number has a positive numerator. *)
Lemma div_pos_num (x y : float) :
  PrimFloat.ltb zero (PrimFloat.div x y) = true ->
  PrimFloat.ltb zero y = true -> PrimFloat.ltb zero x = true.
Proof.
  rewrite !ltb_SF, div_spec, zero_SF. unfold SF64div.
  destruct (Prim2SF x) as [[|] | [|] | | [|] mx ex],
           (Prim2SF y) as [[|] | [|] | | [|] my ey];
    try (cbn; congruence).
  pose proof (SFdiv_round_sign true false mx my ex ey) as H.
  destruct (SFdiv _ _ _ _) as [s'|s'| |s' ? ?]; cbn in *; subst; congruence.
Qed.

(** A negative quotient by a positive number has a negative numerator. *)
Lemma div_neg_num (x y : float) :
  PrimFloat.ltb (PrimFloat.div x y) zero = true ->
  PrimFloat.ltb zero y = true -> PrimFloat.ltb x zero = true.
Proof.
  rewrite !ltb_SF, div_spec, zero_SF. unfold SF64div.
  destruct (Prim2SF x) as [[|] | [|] | | [|] mx ex],
           (Prim2SF y) as [[|] | [|] | | [|] my ey];
    try (cbn; congruence).
  pose proof (SFdiv_round_sign false false mx my ex ey) as H.
  destruct (SFdiv _ _ _ _) as [s'|s'| |s' ? ?]; cbn in *; subst; congruence.
Qed.

(** The factors of a positive product have the same sign. *)
Lemma mul_pos_cases (x y : float) :
  PrimFloat.ltb zero (PrimFloat.mul x y) = true ->
  (PrimFloat.ltb zero x = true /\ PrimFloat.ltb zero y = true) \/
  (PrimFloat.ltb x zero = true /\ PrimFloat.ltb y zero = true).
Proof.
  rewrite !ltb_SF, mul_spec, zero_SF. unfold SF64mul.
  destruct (Prim2SF x) as [[|] | [|] | | sx mx ex],
           (Prim2SF y) as [[|] | [|] | | sy my ey];
    try (cbn; intuition congruence);
    try (destruct sx; cbn; intuition congruence);
    try (destruct sy; cbn; intuition congruence).
  pose proof (SFmul_round_sign sx sy mx my ex ey) as H.
  destruct (SFmul _ _ _ _) as [s'|s'| |s' ? ?]; destruct sx, sy;
    cbn in *; subst; intuition congruence.
Qed.

(** The factors of a negative product have opposite signs. *)
Lemma mul_neg_cases (x y : float) :
  PrimFloat.ltb (PrimFloat.mul x y) zero = true ->
  (PrimFloat.ltb zero x = true /\ PrimFloat.ltb y zero = true) \/
  (PrimFloat.ltb x zero = true /\ PrimFloat.ltb zero y = true).
Proof.
  rewrite !ltb_SF, mul_spec, zero_SF. unfold SF64mul.
  destruct (Prim2SF x) as [[|] | [|] | | sx mx ex],
           (Prim2SF y) as [[|] | [|] | | sy my ey];
    try (cbn; intuition congruence);
    try (destruct sx; cbn; intuition congruence);
    try (destruct sy; cbn; intuition congruence).
  pose proof (SFmul_round_sign sx sy mx my ex ey) as H.
  destruct (SFmul _ _ _ _) as [s'|s'| |s' ? ?]; destruct sx, sy;
    cbn in *; subst; intuition congruence.
Qed.

Lemma pos_not_neg (x : float) :
  PrimFloat.ltb zero x = true -> PrimFloat.ltb x zero = false.
Proof.
  rewrite !ltb_SF, zero_SF. sf_cases x; cbn; congruence.
Qed.

(** A number that is zero or more is not negative. *)
Lemma nonneg_not_neg (x : float) :
  F64.nonneg (Prim2SF x) -> PrimFloat.ltb x zero = false.
Proof.
  rewrite ltb_SF, zero_SF. sf_cases x; cbn; try contradiction; reflexivity.
Qed.

(** The sum of two finite positive numbers is zero or more. *)
Lemma add_pos_nonneg (x y : float) :
  is_finite x = true -> is_finite y = true ->
  PrimFloat.ltb zero x = true -> PrimFloat.ltb zero y = true ->
  F64.nonneg (Prim2SF (PrimFloat.add x y)).
Proof.
  intros Fx Fy. apply is_finite_SF in Fx, Fy. revert Fx Fy.
  rewrite !ltb_SF, add_spec, zero_SF. unfold SF64add.
  destruct (Prim2SF x) as [[|] | [|] | | [|] mx ex],
           (Prim2SF y) as [[|] | [|] | | [|] my ey];
    try (cbn; intuition congruence).
  intros _ _ _ _. cbn [SFadd cond_Zopp]. cbn [Z.add binary_normalize].
  unfold binary_round.
  destruct (shl_align _ _ _) as [mz ez].
  apply round_nonneg. lia.
Qed.

(** The quotient of two numbers that are zero or more is not negative. *)
Lemma div_nonneg_not_neg (x y : float) :
  F64.nonneg (Prim2SF x) -> F64.nonneg (Prim2SF y) ->
  PrimFloat.ltb (PrimFloat.div x y) zero = false.
Proof.
  rewrite ltb_SF, div_spec, zero_SF. unfold SF64div.
  destruct (Prim2SF x) as [[|] | [|] | | [|] mx ex],
           (Prim2SF y) as [[|] | [|] | | [|] my ey];
    cbn [F64.nonneg]; try contradiction; intros _ _; try reflexivity.
  pose proof (SFdiv_round_sign false false mx my ex ey) as H.
  destruct (SFdiv _ _ _ _) as [s'|s'| |s' ? ?]; cbn in *; subst; reflexivity.
Qed.

End F64Facts.

(** ** Binary64: how far a product and a quotient are from the real ones

    [binary_round_aux] shifts the mantissa to the right, keeping where
    the real result lies between two neighbours, rounds to nearest and
    shifts once more.  Followed through these steps, the real result is
    within a unit and a half of the last place of what is returned;
    for a normal number that is 3 / 2^53 of it. *)

Module Rounding.
Import F64Facts.
Local Open Scope R_scope.





























End Rounding.

(** ** Binary64: what [calc] does on degenerate input *)

Section Binary64.
Context (m : Libm float).
Local Open Scope js_scope.

(** [toNum] never returns NaN or an infinity. *)
Lemma toNum_finite (v : string) : is_finite (toNum v) = true.
Proof.
  unfold toNum. cbn [Number_isFinite Float64].
  destruct (is_finite (Number v)) eqn:H; [exact H | reflexivity].
Qed.

(** Text that is not a finite number reads as 0. *)
Lemma toNum_not_numeric (v : string) :
  is_finite (Number v) = false -> toNum v = #0.
Proof.
  intros H. unfold toNum. cbn [Number_isFinite Float64]. rewrite H. reflexivity.
Qed.

(** The inputs that fail [> 0]: the numbers that are zero or less, and
    the text that is no finite number. *)
Lemma positive_input_false (v : string) :
  positive_input v = false <->
  is_finite (Number v) = false \/ (Number v <=? #0) = true.
Proof.
  unfold positive_input, toNum. cbn [Number_isFinite Float64 ltb leb lit].
  destruct (is_finite (Number v)) eqn:Hf.
  - change (F64.of_Q 0) with zero.
    rewrite F64Facts.ltb_SF, F64Facts.leb_SF, F64Facts.zero_SF.
    apply F64Facts.is_finite_SF in Hf.
    F64Facts.sf_cases (Number v);
      try contradiction; cbn; intuition congruence.
  - split; [left; reflexivity | reflexivity].
Qed.




Lemma area_guard_fromCfm (s : Inputs) :
  mode s = fromCfm -> positive_input (targetFpm s) = false ->
  areaIn2 (calc s) = #0.
Proof.
  unfold positive_input. intros Hm H.
  destruct (calc_fromCfm s Hm) as [_ ->]. cbn zeta. rewrite H. reflexivity.
Qed.




(** C2, as amended.  Every number that [toNum] returns is finite, and
    each quotient whose denominator is a velocity, an area, a hydraulic
    diameter or a Reynolds number is replaced by zero when that
    denominator is not positive; among them the air speed Q / A, which
    enters the result through the friction rate. *)
Theorem guarded_quotients (s : Inputs) :
  (forall v : string, is_finite (toNum v) = true) /\
  (mode s = fromCfm -> (toNum (targetFpm s) >? #0) = false ->
   areaIn2 (calc s) = #0) /\
  ((areaFt2 (calc s) >? #0) = false -> velFpm (calc s) = #0) /\
  ((areaIn2 (calc s) >? #0) = false -> idealRoundDia (calc s) = #0) /\
  (shape s = rect ->
   (toNum (rectW s) >? #0) && (toNum (rectH s) >? #0) = false ->
   Dh_in (calc s) = #0) /\
  ((inToM (Dh_in (calc s)) >? #0) = false -> dpInWgPer100ft (calc s) = #0) /\
  (forall Re eps D : float,
   (Re <=? #0) = true \/ (D <=? #0) = true ->
   frictionFactorDarcy Re eps D = #0) /\
  (forall a b : float,
   (a <=? #0) = true \/ (b <=? #0) = true -> equivalentRoundIn a b = #0) /\
  dpInWgPer100ft (calc s) =
    paToInWg
      (if calc_D s >? #0
       then frictionFactorDarcy (calc_Re s) (roughness (material s)) (calc_D s)
            * (ftToM #100 / calc_D s) * (#1.2 * calc_V s * calc_V s / #2)
       else #0) /\
  (((if areaIn2 (calc s) >? #0
     then areaIn2 (calc s) * (#0.0254 * #0.0254) else #0) >? #0) = false ->
   calc_V s = #0) /\
  ((areaIn2 (calc s) >? #0) = false -> calc_V s = #0).
Proof.
  split; [exact toNum_finite|].
  split; [intros Hm H; apply area_guard_fromCfm; assumption|].
  split; [intros H; rewrite calc_velFpm, H; reflexivity|].
  split; [intros H; rewrite calc_idealRoundDia, H; reflexivity|].
  split.
  { intros Hs H. destruct (calc_rect_geometry s Hs) as [-> _].
    cbn zeta. rewrite H. reflexivity. }
  split; [intros H; rewrite (calc_dp_guard s H); reflexivity|].
  split; [intros Re eps D; apply frictionFactorDarcy_guard|].
  split; [intros a b; apply equivalentRoundIn_guard|].
  split; [reflexivity|].
  split.
  - intros H. unfold calc_V. cbn zeta. rewrite H. reflexivity.
  - intros H. unfold calc_V. cbn zeta. rewrite H. reflexivity.
Qed.

(** The two regimes of [frictionFactorDarcy] on its own: with a
    positive diameter, 64/Re for 0 < Re < 2300 and the explicit
    turbulent formula from Re = 2300 on. *)
Lemma frictionFactorDarcy_regimes (Re eps D : float) :
  (D >? #0) = true ->
  ((Re >? #0) = true -> (Re <? #2300) = true ->
   frictionFactorDarcy Re eps D = #64 / Re) /\
  ((#2300 <=? Re) = true ->
   frictionFactorDarcy Re eps D =
   #0.25 /
   Math_pow (Math_log10 (eps / (#3.7 * D) + #5.74 / Math_pow Re #0.9)) #2).
Proof.
  intros HD. apply F64Facts.ltb_not_leb in HD.
  unfold frictionFactorDarcy. split.
  - intros H0 H1. apply F64Facts.ltb_not_leb in H0.
    cbn [ltb leb Float64] in *. rewrite H0, HD, H1. reflexivity.
  - intros H.
    pose proof (F64Facts.leb_not_ltb _ _ H) as H1.
    assert (H0 : PrimFloat.leb Re zero = false).
    { eapply (F64Facts.leb_lit_not_le0 #2300); [reflexivity | exact H]. }
    cbn [ltb leb lit Float64] in *. change (F64.of_Q 0) with zero in *.
    rewrite H0, HD, H1. reflexivity.
Qed.

(** A literal of the source that is positive is not negative. *)
Ltac lit_sign :=
  match goal with
  | H : PrimFloat.ltb (F64.of_Q ?q) zero = true |- _ =>
      vm_compute in H; discriminate H
  end.

(** The hydraulic diameter of a rectangular duct is not negative. *)
Lemma rect_Dh_not_neg (w h : float) :
  is_finite w = true -> is_finite h = true ->
  (w >? #0) = true -> (h >? #0) = true ->
  ((#2 * w * h) / (w + h) <? #0) = false.
Proof.
  intros Fw Fh Hw Hh. cbn [ltb lit mul div add Float64] in *.
  change (F64.of_Q 0) with zero in *.
  apply F64Facts.div_nonneg_not_neg;
    [|apply F64Facts.add_pos_nonneg; assumption].
  pose proof (F64Facts.positive_nonneg _ Hw) as Nw.
  pose proof (F64Facts.positive_nonneg _ Hh) as Nh.
  apply F64Facts.is_finite_SF in Fh.
  rewrite !mul_spec. unfold SF64mul.
  change (Prim2SF (F64.of_Q 2)) with (S754_finite false 4503599627370496 (-51)).
  assert (N2 : F64.nonneg
                 (SFmul prec emax (S754_finite false 4503599627370496 (-51))
                    (Prim2SF w))).
  { apply F64Facts.SFmul_nonneg; [exact I | exact Nw |].
    destruct (Prim2SF w); exact I. }
  apply F64Facts.SFmul_nonneg; [exact N2 | exact Nh |].
  rewrite F64Facts.ltb_SF, F64Facts.zero_SF in Hh.
  destruct (Prim2SF h) as [[|] | [|] | | [|] mh eh]; try contradiction;
    try discriminate Hh; destruct (SFmul _ _ _ _); exact I.
Qed.

(** Whenever the Reynolds number that [calc] computes is positive, so
    is the hydraulic diameter in metres.  The Reynolds number is
    rho V D / mu; were V and D both negative, the airflow would be
    negative over a positive area and the diameter entered negative:
    a round duct sized from a negative diameter has no area, and in
    airflow-to-size mode a negative airflow gives no positive area. *)
Lemma Re_positive_D_positive (s : Inputs) :
  (calc_Re s >? #0) = true -> (calc_D s >? #0) = true.
Proof.
  unfold calc_Re. cbn zeta. cbn [ltb lit mul div Float64].
  change (F64.of_Q 0) with zero.
  replace (PrimFloat.ltb zero (F64.of_Q 1.81e-5)) with true
    by (vm_compute; reflexivity).
  intros H.
  pose proof (F64Facts.div_pos_num _ _ H ltac:(vm_compute; reflexivity)) as H'.
  clear H; rename H' into H.
  apply F64Facts.mul_pos_cases in H as [[_ HD] | [HV HD]]; [exact HD|].
  exfalso.
  apply F64Facts.mul_neg_cases in HV as [[_ HV] | [Hc _]]; [|lit_sign].
  (* the diameter in inches is negative *)
  unfold calc_D, inToM in HD. cbn [mul lit Float64] in HD.
  apply F64Facts.mul_neg_cases in HD as [[_ Hc] | [HD _]]; [lit_sign|].
  (* the airflow is negative and the area positive *)
  unfold calc_V in HV. cbn [ltb lit mul div Float64] in HV.
  change (F64.of_Q 0) with zero in HV.
  destruct (PrimFloat.ltb zero
              (if PrimFloat.ltb zero (areaIn2 (calc s))
               then PrimFloat.mul (areaIn2 (calc s))
                      (PrimFloat.mul (F64.of_Q 0.0254) (F64.of_Q 0.0254))
               else zero)) eqn:HA;
    [|vm_compute in HV; discriminate HV].
  apply (F64Facts.div_neg_num _ _ HV) in HA as HQ.
  unfold cfmToM3s in HQ. cbn [mul lit Float64] in HQ.
  apply F64Facts.mul_neg_cases in HQ as [[_ Hc] | [HQ _]]; [lit_sign|].
  destruct (PrimFloat.ltb zero (areaIn2 (calc s))) eqn:Ha;
    [|vm_compute in HA; discriminate HA].
  clear HA HV.
  destruct (shape s) eqn:Hs.
  - destruct (calc_round_geometry s Hs) as [HDh _].
    rewrite HDh in HD. unfold or_else in HD.
    destruct (truthy (toNum (roundDia s)));
      [|vm_compute in HD; discriminate HD].
    destruct (mode s) eqn:Hm.
    + destruct (calc_fromSize_round s Hm Hs) as [Harea _]. cbn zeta in Harea.
      rewrite Harea in Ha. cbn [ltb lit Float64] in Ha.
      change (F64.of_Q 0) with zero in Ha.
      destruct (PrimFloat.ltb zero (toNum (roundDia s))) eqn:Hd;
        [|vm_compute in Ha; discriminate Ha].
      apply F64Facts.pos_not_neg in Hd. congruence.
    + destruct (calc_fromCfm s Hm) as [Hq Harea]. cbn zeta in Harea.
      rewrite Hq in HQ. rewrite Harea in Ha.
      cbn [ltb lit mul div Float64] in Ha.
      change (F64.of_Q 0) with zero in Ha.
      apply F64Facts.mul_pos_cases in Ha as [[Ha _] | [_ Hc]]; [|lit_sign].
      destruct (PrimFloat.ltb zero (toNum (targetFpm s))) eqn:Hv;
        [|vm_compute in Ha; discriminate Ha].
      apply (F64Facts.div_pos_num _ _ Ha) in Hv.
      apply F64Facts.pos_not_neg in Hv. congruence.
  - destruct (calc_rect_geometry s Hs) as [HDh _]. cbn zeta in HDh.
    rewrite HDh in HD.
    destruct ((toNum (rectW s) >? #0) && (toNum (rectH s) >? #0)) eqn:Hwh;
      [|vm_compute in HD; discriminate HD].
    apply andb_prop in Hwh as [Hw Hh].
    pose proof (rect_Dh_not_neg _ _ (toNum_finite _) (toNum_finite _) Hw Hh)
      as Hn.
    cbn [ltb lit mul div add Float64] in Hn, HD.
    change (F64.of_Q 0) with zero in Hn. congruence.
Qed.

(** C3.  Every friction factor that [calc] computes is
    [frictionFactorDarcy] at its Reynolds number and its hydraulic
    diameter in metres, and a positive Reynolds number comes with a
    positive diameter.  So for 0 < Re < 2300 the factor is 64/Re, and
    from Re = 2300 on it is the explicit turbulent formula, for every
    roughness. *)
Theorem friction_factor_regimes (s : Inputs) (eps : float) :
  dpInWgPer100ft (calc s) =
    paToInWg
      (if calc_D s >? #0
       then frictionFactorDarcy (calc_Re s) (roughness (material s)) (calc_D s)
            * (ftToM #100 / calc_D s) * (#1.2 * calc_V s * calc_V s / #2)
       else #0) /\
  ((calc_Re s >? #0) = true -> (calc_D s >? #0) = true) /\
  ((calc_Re s >? #0) = true -> (calc_Re s <? #2300) = true ->
   frictionFactorDarcy (calc_Re s) eps (calc_D s) = #64 / calc_Re s) /\
  ((#2300 <=? calc_Re s) = true ->
   frictionFactorDarcy (calc_Re s) eps (calc_D s) =
   #0.25 /
   Math_pow
     (Math_log10 (eps / (#3.7 * calc_D s) + #5.74 / Math_pow (calc_Re s) #0.9))
     #2).
Proof.
  split; [reflexivity|].
  split; [apply Re_positive_D_positive|].
  split.
  - intros H0 H1.
    exact (proj1 (frictionFactorDarcy_regimes _ eps _
                    (Re_positive_D_positive s H0)) H0 H1).
  - intros H.
    assert (H0 : (calc_Re s >? #0) = true).
    { cbn [ltb leb lit Float64] in *. change (F64.of_Q 0) with zero.
      revert H. rewrite F64Facts.leb_SF, F64Facts.ltb_SF, F64Facts.zero_SF.
      change (Prim2SF (F64.of_Q 2300))
        with (S754_finite false 5057753487769600 (-41)).
      F64Facts.sf_cases (calc_Re s); cbn; congruence. }
    exact (proj2 (frictionFactorDarcy_regimes _ eps _
                    (Re_positive_D_positive s H0)) H).
Qed.

(** C6.  In airflow-to-size mode the area in square feet is Q / V for a
    positive velocity and 0 for a velocity of zero or less, the area in
    square inches is that times 144, and a positive area in square
    inches gives the ideal round diameter sqrt (4 area / pi).  The area
    in square feet that is reported is the one in square inches over
    144. *)
Theorem airflow_to_size (s : Inputs) :
  mode s = fromCfm ->
  exists ft2 : float,
    ((toNum (targetFpm s) >? #0) = true ->
     ft2 = toNum (cfm s) / toNum (targetFpm s)) /\
    ((toNum (targetFpm s) <=? #0) = true -> ft2 = #0) /\
    areaIn2 (calc s) = ft2 * #144 /\
    areaFt2 (calc s) = areaIn2 (calc s) / #144 /\
    ((areaIn2 (calc s) >? #0) = true ->
     idealRoundDia (calc s) = Math_sqrt (#4 * areaIn2 (calc s) / Math_PI)).
Proof.
  intros Hm. destruct (calc_fromCfm s Hm) as [_ Ha]. cbn zeta in Ha.
  exists (if toNum (targetFpm s) >? #0
          then toNum (cfm s) / toNum (targetFpm s) else #0).
  split; [intros ->; reflexivity|].
  split.
  { intros H. apply F64Facts.leb_not_ltb in H.
    cbn [ltb Float64] in *. rewrite H. reflexivity. }
  split; [exact Ha|].
  split; [apply calc_areaFt2|].
  intros H. rewrite calc_idealRoundDia, H. reflexivity.
Qed.

(** C7.  For a rectangular duct with positive width and height the
    hydraulic diameter is 2 w h / (w + h) and the equivalent round
    diameter 1.3 (w h)^0.625 / (w + h)^0.25; both are 0 if a dimension
    is zero or less. *)
Theorem rectangular_diameters (s : Inputs) :
  shape s = rect ->
  ((toNum (rectW s) >? #0) = true -> (toNum (rectH s) >? #0) = true ->
   Dh_in (calc s) =
     #2 * toNum (rectW s) * toNum (rectH s) /
     (toNum (rectW s) + toNum (rectH s)) /\
   eqRound (calc s) =
     #1.3 * Math_pow (toNum (rectW s) * toNum (rectH s)) #0.625 /
     Math_pow (toNum (rectW s) + toNum (rectH s)) #0.25) /\
  ((toNum (rectW s) <=? #0) = true \/ (toNum (rectH s) <=? #0) = true ->
   Dh_in (calc s) = #0 /\ eqRound (calc s) = #0).
Proof.
  intros Hs. destruct (calc_rect_geometry s Hs) as [-> ->]. cbn zeta.
  split.
  - intros Hw Hh. rewrite Hw, Hh. split; [reflexivity|].
    apply F64Facts.ltb_not_leb in Hw, Hh.
    unfold equivalentRoundIn. cbn [leb Float64] in *.
    rewrite Hw, Hh. reflexivity.
  - intros H. split.
    + destruct H as [H | H]; apply F64Facts.leb_not_ltb in H;
        cbn [ltb Float64] in *; rewrite H;
        [reflexivity | rewrite andb_false_r; reflexivity].
    + apply equivalentRoundIn_guard, H.
Qed.

Lemma round_area_nonneg (d : float) :
  (d >? #0) = true -> F64.nonneg (Prim2SF (roundAreaIn2 d / #144)).
Proof.
  intros Hd. apply F64Facts.positive_nonneg in Hd.
  unfold roundAreaIn2. cbn [mul div Math_PI Float64 lit].
  rewrite div_spec, !mul_spec, div_spec. unfold SF64div, SF64mul.
  apply (F64Facts.SFdiv_lit_nonneg _ 5066549580791808 (-45)).
  pose proof (F64Facts.SFdiv_lit_nonneg _ 4503599627370496 (-51) Hd) as Hr.
  change (Prim2SF (F64.of_Q 2)) with (S754_finite false 4503599627370496 (-51)).
  change (Prim2SF F64.PI) with (S754_finite false 7074237752028440 (-51)).
  revert Hr.
  generalize (SFdiv prec emax (Prim2SF d)
                (S754_finite false 4503599627370496 (-51))).
  intros r Hr.
  assert (Hp : F64.nonneg
                 (SFmul prec emax (S754_finite false 7074237752028440 (-51)) r)).
  { apply F64Facts.SFmul_nonneg; [exact I | exact Hr |].
    destruct r; exact I. }
  apply F64Facts.SFmul_nonneg; [exact Hp | exact Hr |].
  destruct r as [[|] | [|] | | [|] mr er]; try contradiction;
    try exact I.
  destruct (SFmul _ _ _ _); exact I.
Qed.

(** C8.  In size-to-airflow mode a round duct of positive diameter d
    has the area pi (d/2)^2 in square inches, and the airflow is that
    area over 144 times the velocity input. *)
Theorem round_area_and_airflow (s : Inputs) :
  mode s = fromSize -> shape s = round ->
  (toNum (roundDia s) >? #0) = true ->
  areaIn2 (calc s) =
    Math_PI * (toNum (roundDia s) / #2) * (toNum (roundDia s) / #2) /\
  F64.SameValueZero
    (usedCfm (calc s)) (areaIn2 (calc s) / #144 * toNum (targetFpm s)) = true.
Proof.
  intros Hm Hs Hd. destruct (calc_fromSize_round s Hm Hs) as [Ha ->].
  cbn zeta in Ha. rewrite Hd in Ha. rewrite Ha. split; [reflexivity|].
  destruct (roundAreaIn2 (toNum (roundDia s)) / #144 >? #0) eqn:Hp.
  - apply F64Facts.SameValueZero_refl.
  - rewrite (F64Facts.nonneg_not_positive _ (round_area_nonneg _ Hd) Hp).
    apply F64Facts.SameValueZero_zero_mul, toNum_finite.
Qed.

(** The run-loss scenario of the defaults: 50 ft of straight duct, two
    90-degree elbows at 25 ft and one boot at 20 ft. *)
Lemma run_loss_scenario (s : Inputs) :
  straightLenFt s = "50" ->
  (forall k, fitCount s k = fitCount initial k) ->
  (forall k, fitEqLen s k = String_of_Z (DEFAULT_EQ_LEN_FT k)) ->
  fittingsEq (run s) = #70 /\ totalEqLen (run s) = #120 /\
  totalDrop (run s) = dpInWgPer100ft (calc s) * #1.2.
Proof.
  intros Hs Hc He.
  assert (Hf : fittingsEq (run s) = #70).
  { rewrite run_fittingsEq. cbn zeta. rewrite !Hc, !He. reflexivity. }
  destruct (run_totals s) as [Ht Hd].
  assert (Ht' : totalEqLen (run s) = #120).
  { rewrite Ht, Hf, Hs. reflexivity. }
  rewrite Hd, Ht'. repeat split; try assumption.
Qed.

(** C10.  [run] clamps nothing.  [toNum] returns every finite number
    as it is read, a negative one included, and on the laminar sizing
    state (round, 10 in, 1 FPM), whose friction rate is positive, a
    negative straight length, a negative quantity and a negative unit
    length each give a negative total equivalent length and a negative
    total drop. *)
Theorem run_loss_not_clamped :
  (forall v : string, is_finite (Number v) = true -> toNum v = Number v) /\
  toNum "-50" = (-50)%float /\
  (dpInWgPer100ft (calc (setTargetFpm "1" initial)) >? #0) = true /\
  (totalEqLen (run (setStraightLenFt "-200" (setTargetFpm "1" initial)))
     = (-130)%float /\
   (totalDrop (run (setStraightLenFt "-200" (setTargetFpm "1" initial)))
      <? #0) = true) /\
  (totalEqLen (run (setFitCount elbow90 "-10" (setTargetFpm "1" initial)))
     = (-180)%float /\
   (totalDrop (run (setFitCount elbow90 "-10" (setTargetFpm "1" initial)))
      <? #0) = true) /\
  (totalEqLen (run (setFitEqLen elbow90 "-100" (setTargetFpm "1" initial)))
     = (-130)%float /\
   (totalDrop (run (setFitEqLen elbow90 "-100" (setTargetFpm "1" initial)))
      <? #0) = true).
Proof.
  split.
  { intros v H. unfold toNum. cbn [Number_isFinite Float64].
    rewrite H. reflexivity. }
  repeat split; vm_compute; reflexivity.
Qed.

End Binary64.

(** C5.  [run] adds the seven contributions quantity x unit length to
    the straight length and scales the friction rate by the total over
    100; with the defaults, 50 ft straight, two elbows and one boot make
    70 ft of fittings, 120 ft in total and a drop of 1.2 friction
    rates. *)
Theorem run_loss_totals :
  (forall (num : Type) (J : JsNumber num) (s : Inputs),
   let c k := (toNum (fitCount s k) * toNum (fitEqLen s k))%js in
   fittingsEq (run s) =
     (#0 + c elbow90 + c elbow45 + c teeThru + c teeBranch + c wye45
      + c boot + c transition)%js /\
   totalEqLen (run s) = (toNum (straightLenFt s) + fittingsEq (run s))%js /\
   totalDrop (run s) =
     (dpInWgPer100ft (calc s) * (totalEqLen (run s) / #100))%js) /\
  (forall (m : Libm float) (s : Inputs),
   straightLenFt s = "50" ->
   (forall k, fitCount s k = fitCount initial k) ->
   (forall k, fitEqLen s k = String_of_Z (DEFAULT_EQ_LEN_FT k)) ->
   fittingsEq (run s) = #70%js /\ totalEqLen (run s) = #120%js /\
   totalDrop (run s) = (dpInWgPer100ft (calc s) * #1.2)%js).
Proof.
  split.
  - intros num J s c. split; [apply run_fittingsEq | apply run_totals].
  - exact run_loss_scenario.
Qed.

(** C9.  Between two states that differ only in the unit equivalent
    length of kind [k], the entries of [run] keep their keys and order,
    every entry of another kind is the same, and so are the sizing
    results, the straight length and the friction rate. *)
Theorem fitting_length_locality
  (num : Type) (J : JsNumber num) (k : FittingKey) (s s' : Inputs) :
  differ_only_in_fitEqLen k s s' ->
  Forall2 (fun it it' => key it' = key it /\ (key it <> k -> it' = it))
    (items (run s)) (items (run s')) /\
  calc s' = calc s /\ straight (run s') = straight (run s) /\
  frictionPer100 (run s') = frictionPer100 (run s).
Proof.
  intros (_ & Hm & Hs & Hmat & Hv & Hd & Hw & Hh & Hc & Hl & Hcount & Heq).
  assert (Hcalc : calc s' = calc s) by (apply calc_ext; assumption).
  split; [|split; [exact Hcalc | split]].
  - rewrite !run_items.
    assert (Hall : forall k0, key (item_of s' k0) = key (item_of s k0) /\
              (key (item_of s k0) <> k -> item_of s' k0 = item_of s k0)).
    { intros k0. split; [reflexivity|]. cbn [key item_of]. intros Hk.
      apply item_of_ext; [apply Hcount | apply Heq, Hk]. }
    induction FITTING_KEYS as [|k0 ks IH]; constructor; [apply Hall | exact IH].
  - unfold run; cbn [straight]. rewrite Hl. reflexivity.
  - unfold run; cbn [frictionPer100]. rewrite Hcalc. reflexivity.
Qed.

(** ** Binary64: the round trip between the two modes *)

Section RoundTrip.
Context (m : Libm float).
Local Open Scope js_scope.



End RoundTrip.

(** ** The claims at concrete inputs *)

Section Instances.
Local Open Scope js_scope.
#[local] Existing Instance libm64.

(** The end-to-end scenario of the defaults: a round duct of 10 in at
    700 FPM in galvanized steel. *)
Example default_sizing :
  calc initial =
  {| usedCfm := 381.79077387375963%float;
     areaIn2 := 78.539816339744831%float;
     areaFt2 := 0.54541539124822802%float;
     velFpm := 700%float;
     Dh_in := 10%float;
     eqRound := 0%float;
     dpInWgPer100ft := 0.081466076374253446%float;
     idealRoundDia := 10%float |}.
Proof. vm_compute. reflexivity. Qed.

Example default_run_loss :
  let r := run initial in
  (fittingsEq r, totalEqLen r, totalDrop r)
  = (70, 120, 0.09775929164910413)%float.
Proof. vm_compute. reflexivity. Qed.

(** Text that is no number, and the word Infinity, read as 0. *)
Example toNum_coerces :
  map toNum ["abc"; ""; "Infinity"; "-Infinity"; "1e400"; "12px"; "-3.5"]
  = [0; 0; 0; 0; 0; 0; -3.5]%float.
Proof. vm_compute. reflexivity. Qed.

(** The quotient 0.25 / log10(term)^2 of the turbulent branch has no
    guard.  With the reference host, 800 CFM at 405852.5145490785 FPM
    through a round duct of 0.0016 in make the term exactly 1, its
    logarithm 0, and the friction rate infinite. *)
Example turbulent_quotient_unguarded :
  dpInWgPer100ft
    (calc (setTargetFpm "405852.5145490785"
             (setRoundDia "0.0016" (setMode fromCfm initial))))
  = infinity.
Proof. vm_compute. reflexivity. Qed.

(** The area in square feet of the result is recomputed from the one in
    square inches; in binary64 it can differ in the last place from the
    quotient Q / V of the airflow-to-size branch: 1 CFM at 33 FPM. *)
Example reported_ft2_rounds :
  let r := calc (setTargetFpm "33" (setCfm "1" (setMode fromCfm initial))) in
  (toNum "1" / toNum "33", areaIn2 r, areaFt2 r)
  = (0.030303030303030304, 4.3636363636363633, 0.0303030303030303)%float.
Proof. vm_compute. reflexivity. Qed.



(** C2 refuted as stated: the diameter 1e200 is a finite number, and
    the area it gives is infinite, as is the airflow; the velocity is
    NaN. *)
Lemma huge_diameter_overflows :
  exists s : Inputs,
    s = setRoundDia "1e200" initial /\
    forall m : Libm float,
      is_finite (toNum (J := Float64 m) (roundDia s)) = true /\
      areaIn2 (calc (J := Float64 m) s) = infinity /\
      usedCfm (calc (J := Float64 m) s) = infinity /\
      is_nan (velFpm (calc (J := Float64 m) s)) = true.
Proof.
  eexists; split; [reflexivity|]. intros m. repeat split; vm_compute; reflexivity.
Qed.

(** C2 at a velocity of zero in airflow-to-size mode, where the area is
    zero and the velocity, the ideal round diameter and the air speed
    are therefore zero. *)
Lemma guarded_quotients_witness :
  areaIn2 (calc (J := Float64 libm64)
             (setTargetFpm "0" (setMode fromCfm initial))) = zero /\
  velFpm (calc (J := Float64 libm64)
            (setTargetFpm "0" (setMode fromCfm initial))) = zero /\
  idealRoundDia (calc (J := Float64 libm64)
                   (setTargetFpm "0" (setMode fromCfm initial))) = zero /\
  calc_V (J := Float64 libm64)
    (setTargetFpm "0" (setMode fromCfm initial)) = zero.
Proof.
  destruct (guarded_quotients libm64
              (setTargetFpm "0" (setMode fromCfm initial)))
    as (_ & Ha & Hv & Hi & _ & _ & _ & _ & _ & _ & HV).
  split; [exact (Ha eq_refl eq_refl)|].
  split; [exact (Hv eq_refl)|].
  split; [exact (Hi eq_refl) | exact (HV eq_refl)].
Defined.

(** C3 at the default duct: at 10 FPM the Reynolds number is about 855
    and the flow laminar, at the default 700 FPM it is about 59900 and
    the flow turbulent. *)
Lemma friction_factor_regimes_witness :
  frictionFactorDarcy (calc_Re (setTargetFpm "10" initial)) (roughness galv)
    (calc_D (setTargetFpm "10" initial))
  = #64 / calc_Re (setTargetFpm "10" initial) /\
  frictionFactorDarcy (calc_Re initial) (roughness galv) (calc_D initial)
  = #0.25 /
    Math_pow
      (Math_log10
         (roughness galv / (#3.7 * calc_D initial)
          + #5.74 / Math_pow (calc_Re initial) #0.9))
      #2.
Proof.
  split.
  - destruct (friction_factor_regimes libm64 (setTargetFpm "10" initial)
                (roughness galv)) as (_ & _ & H & _).
    apply H; vm_compute; reflexivity.
  - destruct (friction_factor_regimes libm64 initial (roughness galv))
      as (_ & _ & _ & H).
    apply H; vm_compute; reflexivity.
Defined.



(** C5 at the initial state. *)
Lemma run_loss_totals_witness :
  fittingsEq (run initial) = #70 /\
  totalEqLen (run initial) = #120 /\
  totalDrop (run initial) = dpInWgPer100ft (calc initial) * #1.2.
Proof.
  exact (proj2 run_loss_totals libm64 initial eq_refl
           (fun k => eq_refl) (fun k => eq_refl)).
Defined.

(** C6 at the initial inputs in airflow-to-size mode: 800 CFM at
    700 FPM. *)
Lemma airflow_to_size_witness :
  exists ft2 : float,
    ft2 = toNum "800" / toNum "700" /\
    areaIn2 (calc (setMode fromCfm initial)) = ft2 * #144 /\
    idealRoundDia (calc (setMode fromCfm initial))
    = Math_sqrt (#4 * areaIn2 (calc (setMode fromCfm initial)) / Math_PI).
Proof.
  destruct (airflow_to_size libm64 (setMode fromCfm initial) eq_refl)
    as (ft2 & Hpos & _ & Ha & _ & Hi).
  exists ft2. split; [exact (Hpos eq_refl)|]. split; [exact Ha|].
  apply Hi. rewrite Ha, (Hpos eq_refl). reflexivity.
Defined.

(** C7 at the initial rectangle, 10 in by 8 in. *)
Lemma rectangular_diameters_witness :
  Dh_in (calc (setShape rect initial))
  = #2 * toNum "10" * toNum "8" / (toNum "10" + toNum "8") /\
  eqRound (calc (setShape rect initial))
  = #1.3 * Math_pow (toNum "10" * toNum "8") #0.625
    / Math_pow (toNum "10" + toNum "8") #0.25.
Proof.
  exact (proj1 (rectangular_diameters libm64 (setShape rect initial) eq_refl)
           eq_refl eq_refl).
Defined.

(** C8 at the initial state: a round duct of 10 in. *)
Lemma round_area_and_airflow_witness :
  areaIn2 (calc initial) = Math_PI * (toNum "10" / #2) * (toNum "10" / #2) /\
  F64.SameValueZero (usedCfm (calc initial))
    (areaIn2 (calc initial) / #144 * toNum "700") = true.
Proof.
  exact (round_area_and_airflow libm64 initial eq_refl eq_refl eq_refl).
Defined.

(** C9 at the initial state, the boot's unit length changed to 35 ft. *)
Lemma fitting_length_locality_witness :
  Forall2 (fun it it' => key it' = key it /\ (key it <> boot -> it' = it))
    (items (run initial)) (items (run (setFitEqLen boot "35" initial))).
Proof.
  refine (proj1 (fitting_length_locality float _ boot initial
                   (setFitEqLen boot "35" initial) _)).
  repeat split; try reflexivity.
  intros k' Hk'. destruct k'; try reflexivity. contradiction Hk'. reflexivity.
Defined.

End Instances.

(** * Further properties of the page

    What the page renders and recomputes, and binary64 facts about
    unused fittings, exchanged sides and the sign of the area. *)

(** ** Over any numbers: what is read, rendered and recomputed *)

Section PageFacts.
Context {num : Type} {J : JsNumber num}.
Local Open Scope js_scope.

(** [calc] is a function of the material and of what its two [if]s
    assign. *)
Lemma calc_parts (s s' : Inputs) :
  material s' = material s ->
  area_and_cfm s' (toNum (targetFpm s')) = area_and_cfm s (toNum (targetFpm s)) ->
  geometry s' = geometry s ->
  calc s' = calc s.
Proof. unfold calc. intros -> -> ->. reflexivity. Qed.

(** The friction rate in terms of the locals of [calc]. *)
Lemma calc_dp (s : Inputs) :
  dpInWgPer100ft (calc s) =
  paToInWg
    (if calc_D s >? #0
     then frictionFactorDarcy (calc_Re s) (roughness (material s)) (calc_D s)
          * (ftToM #100 / calc_D s) * (#1.2 * calc_V s * calc_V s / #2)
     else #0).
Proof. reflexivity. Qed.

Lemma FittingKey_eqb_eq (a b : FittingKey) : FittingKey_eqb a b = true <-> a = b.
Proof. destruct a, b; cbn; split; intros H; try reflexivity; discriminate H. Qed.

Lemma set_key_same (p : FittingKey -> string) (k : FittingKey) (v : string) :
  set_key p k v k = v.
Proof. unfold set_key. destruct k; reflexivity. Qed.

Lemma set_key_other (p : FittingKey -> string) (k k' : FittingKey) (v : string) :
  k' <> k -> set_key p k v k' = p k'.
Proof.
  intros H. unfold set_key. destruct (FittingKey_eqb k' k) eqn:E; [|reflexivity].
  apply FittingKey_eqb_eq in E. contradiction.
Qed.

(** X1.  A box that is not rendered has no say: two states with the
    same mode, shape and material whose rendered sizing boxes hold the
    same text have the same sizing results, whatever the hidden boxes,
    the tab and the cells of the run hold. *)
Theorem hidden_boxes_ignored (s s' : Inputs) :
  mode s' = mode s -> shape s' = shape s -> material s' = material s ->
  (forall b, box_rendered s b = true -> box_value s' b = box_value s b) ->
  calc s' = calc s.
Proof.
  intros Hm Hs Hmat H.
  pose proof (H velocityBox eq_refl) as Hv. cbn in Hv.
  pose proof (H cfmBox) as Hc.
  pose proof (H roundDiaBox) as Hd.
  pose proof (H rectWBox) as Hw.
  pose proof (H rectHBox) as Hh. cbn in Hc, Hd, Hw, Hh.
  apply calc_parts; [exact Hmat | |];
    unfold area_and_cfm, geometry; rewrite ?Hm, ?Hs, ?Hv;
    destruct (mode s), (shape s);
    rewrite ?(Hc eq_refl), ?(Hd eq_refl), ?(Hw eq_refl), ?(Hh eq_refl);
    reflexivity.
Qed.

(** X2.  The dependency lists of the two [useMemo] calls are complete:
    [calc] is the same whenever the eight cells of its list are, and
    [run] whenever the straight length, the two records of the fittings
    (entry by entry) and the friction rate of [calc] are; a value kept
    from an earlier render is never stale. *)
Theorem memo_dependencies_complete (s s' : Inputs) :
  (mode s' = mode s -> shape s' = shape s -> material s' = material s ->
   targetFpm s' = targetFpm s -> roundDia s' = roundDia s ->
   rectW s' = rectW s -> rectH s' = rectH s -> cfm s' = cfm s ->
   calc s' = calc s) /\
  (straightLenFt s' = straightLenFt s ->
   (forall k, fitCount s' k = fitCount s k) ->
   (forall k, fitEqLen s' k = fitEqLen s k) ->
   dpInWgPer100ft (calc s') = dpInWgPer100ft (calc s) ->
   run s' = run s).
Proof.
  split; [apply calc_ext|].
  intros Hl Hc He Hdp.
  assert (Hi : map (item_of s') FITTING_KEYS = map (item_of s) FITTING_KEYS).
  { apply map_ext. intros k. apply item_of_ext; [apply Hc | apply He]. }
  unfold run. rewrite Hi, Hl, Hdp. reflexivity.
Qed.

(** X8.  Below a Reynolds number of 2300 the roughness is not read:
    choosing another material leaves every result as it is, the
    friction rate included. *)
Theorem laminar_ignores_material (s : Inputs) (mat : Material) :
  (calc_Re s <? #2300) = true ->
  calc (setMaterial mat s) = calc s.
Proof.
  intros H.
  assert (E : forall eps eps', frictionFactorDarcy (calc_Re s) eps (calc_D s)
                = frictionFactorDarcy (calc_Re s) eps' (calc_D s)).
  { intros eps eps'. unfold frictionFactorDarcy. rewrite H. reflexivity. }
  unfold calc. cbn [material setMaterial].
  change (area_and_cfm (setMaterial mat s)) with (area_and_cfm s).
  change (geometry (setMaterial mat s)) with (geometry s).
  change (targetFpm (setMaterial mat s)) with (targetFpm s).
  cbn zeta. f_equal. f_equal.
  unfold calc_Re, calc_D, calc_V, calc in E. cbn zeta in E.
  cbn [usedCfm areaIn2 Dh_in] in E.
  rewrite (E (roughness mat) (roughness (material s))). reflexivity.
Qed.

(** X12.  In airflow-to-size mode the airflow, the two areas, the
    velocity and the ideal round diameter are read off the airflow and
    the velocity boxes alone, and the hydraulic and the equivalent
    round diameters off the shape and the size boxes alone: the size
    entered reaches the friction rate only, through the hydraulic
    diameter. *)
Theorem airflow_mode_reads (s s' : Inputs) :
  mode s = fromCfm -> mode s' = fromCfm ->
  (targetFpm s' = targetFpm s -> cfm s' = cfm s ->
   usedCfm (calc s') = usedCfm (calc s) /\
   areaIn2 (calc s') = areaIn2 (calc s) /\
   areaFt2 (calc s') = areaFt2 (calc s) /\
   velFpm (calc s') = velFpm (calc s) /\
   idealRoundDia (calc s') = idealRoundDia (calc s)) /\
  (shape s' = shape s -> roundDia s' = roundDia s ->
   rectW s' = rectW s -> rectH s' = rectH s ->
   Dh_in (calc s') = Dh_in (calc s) /\ eqRound (calc s') = eqRound (calc s)).
Proof.
  intros Hm Hm'. split.
  - intros Hv Hc.
    assert (Ha : area_and_cfm s' (toNum (targetFpm s'))
                 = area_and_cfm s (toNum (targetFpm s))).
    { unfold area_and_cfm. rewrite Hm, Hm', Hv, Hc. reflexivity. }
    unfold calc. cbn [usedCfm areaIn2 areaFt2 velFpm idealRoundDia].
    rewrite Ha. repeat split.
  - intros Hs Hd Hw Hh.
    assert (Hg : geometry s' = geometry s).
    { unfold geometry. rewrite Hs, Hd, Hw, Hh. reflexivity. }
    unfold calc. cbn [Dh_in eqRound]. rewrite Hg. split; reflexivity.
Qed.

(** X13.  The update [{ ...p, [k]: v }] behind the two boxes of a row:
    the entry of [k] reads back as [v], every other entry and the
    other record are as before, a second update of [k] overrides the
    first, the sizing results are untouched, and editing a unit length
    leaves a state that differs in that unit length only. *)
Theorem fitting_cell_update (s : Inputs) (k : FittingKey) (v : string) :
  fitCount (setFitCount k v s) k = v /\
  fitEqLen (setFitEqLen k v s) k = v /\
  (forall k', k' <> k ->
     fitCount (setFitCount k v s) k' = fitCount s k' /\
     fitEqLen (setFitEqLen k v s) k' = fitEqLen s k') /\
  (forall k', fitEqLen (setFitCount k v s) k' = fitEqLen s k' /\
              fitCount (setFitEqLen k v s) k' = fitCount s k') /\
  (forall v' k', fitCount (setFitCount k v (setFitCount k v' s)) k'
                 = fitCount (setFitCount k v s) k') /\
  differ_only_in_fitEqLen k s (setFitEqLen k v s) /\
  calc (setFitCount k v s) = calc s /\ calc (setFitEqLen k v s) = calc s.
Proof.
  cbn [fitCount fitEqLen setFitCount setFitEqLen].
  split; [apply set_key_same|]. split; [apply set_key_same|].
  split; [intros k' Hk; split; apply set_key_other, Hk|].
  split; [intros k'; split; reflexivity|].
  split.
  { intros v' k'. unfold set_key. destruct (FittingKey_eqb k' k); reflexivity. }
  split; [|split; reflexivity].
  unfold differ_only_in_fitEqLen. cbn.
  repeat (split; [reflexivity|]).
  intros k' Hk. apply set_key_other, Hk.
Qed.

(** The table of the run tab and [run] agree: [run] has one
    entry for each kind, in the order of the rows and under the label
    of the row, the total a row shows is the [eqTotal] of its entry,
    and the total of the fittings is the sum of the rows from the top,
    starting at 0. *)
Lemma rows_are_items (s : Inputs) :
  map key (items (run s)) = FITTING_KEYS /\
  map label (items (run s)) = map FITTING_LABELS FITTING_KEYS /\
  map eqTotal (items (run s)) = map (row_total s) FITTING_KEYS /\
  fittingsEq (run s) = fold_left add (map (row_total s) FITTING_KEYS) #0.
Proof. repeat split. Qed.

End PageFacts.

(** ** Binary64: commuting operands, and sums of zeros *)

Module F64Algebra.
Import F64Facts.

Lemma SFmul_comm (x y : spec_float) : SFmul prec emax x y = SFmul prec emax y x.
Proof.
  destruct x as [[|] | [|] | | [|] mx ex], y as [[|] | [|] | | [|] my ey];
    try reflexivity; cbn [SFmul xorb];
    rewrite (Pos.mul_comm mx my), (Z.add_comm ex ey); reflexivity.
Qed.

Lemma SFadd_comm (x y : spec_float) : SFadd prec emax x y = SFadd prec emax y x.
Proof.
  destruct x as [[|] | [|] | | [|] mx ex], y as [[|] | [|] | | [|] my ey];
    try reflexivity; cbn [SFadd];
    rewrite (Z.min_comm ex ey), Z.add_comm; reflexivity.
Qed.

Lemma mul_comm (x y : float) : PrimFloat.mul x y = PrimFloat.mul y x.
Proof. apply Prim2SF_inj. rewrite !mul_spec. apply SFmul_comm. Qed.

Lemma add_comm (x y : float) : PrimFloat.add x y = PrimFloat.add y x.
Proof. apply Prim2SF_inj. rewrite !add_spec. apply SFadd_comm. Qed.

Lemma is_zero_SF (x : float) :
  is_zero x = true -> exists s, Prim2SF x = S754_zero s.
Proof.
  unfold is_zero. rewrite eqb_spec, zero_SF.
  sf_cases x; cbn; try discriminate; intros _; eexists; reflexivity.
Qed.

(** A zero times a finite number is a zero. *)
Lemma mul_zero_finite (x y : float) :
  is_zero x = true -> is_finite y = true -> is_zero (PrimFloat.mul x y) = true.
Proof.
  intros Hx Hy. apply is_zero_SF in Hx as [s Hx]. apply is_finite_SF in Hy.
  unfold is_zero. rewrite eqb_spec, mul_spec, Hx, zero_SF.
  sf_cases y; try contradiction; destruct s; reflexivity.
Qed.

(** [+0] plus a zero is [+0]. *)
Lemma add_zero_zero (y : float) : is_zero y = true -> PrimFloat.add zero y = zero.
Proof.
  intros Hy. apply is_zero_SF in Hy as [s Hy].
  apply Prim2SF_inj. rewrite add_spec, Hy, zero_SF. destruct s; reflexivity.
Qed.

(** Adding [+0] to a number that is no zero changes nothing. *)
Lemma add_zero_r_exact (x : float) :
  is_zero x = false -> PrimFloat.add x zero = x.
Proof.
  intros Hx. apply Prim2SF_inj. rewrite add_spec, zero_SF.
  unfold is_zero in Hx. rewrite eqb_spec, zero_SF in Hx.
  revert Hx. sf_cases x; cbn; try discriminate; reflexivity.
Qed.

(** Adding [+0] changes at most the sign of a zero. *)
Lemma add_zero_r (x : float) : F64.SameValueZero (PrimFloat.add x zero) x = true.
Proof.
  destruct (is_zero x) eqn:Hx.
  - rewrite add_comm, (add_zero_zero x Hx).
    unfold F64.SameValueZero. unfold is_zero in Hx.
    rewrite eqb_spec in *. rewrite zero_SF in *.
    revert Hx. sf_cases x; cbn; try discriminate; reflexivity.
  - rewrite (add_zero_r_exact x Hx). apply SameValueZero_refl.
Qed.

(** The products of a number with two zeros differ at most in sign. *)
Lemma mul_zeros (d z z' : float) :
  is_zero z = true -> is_zero z' = true ->
  F64.SameValueZero (PrimFloat.mul d z) (PrimFloat.mul d z') = true.
Proof.
  intros Hz Hz'.
  apply is_zero_SF in Hz as [s Hz]. apply is_zero_SF in Hz' as [s' Hz'].
  unfold F64.SameValueZero, is_nan. rewrite !eqb_spec, !mul_spec, Hz, Hz'.
  sf_cases d; destruct s, s'; reflexivity.
Qed.

(** A zero over a positive literal is a zero. *)
Lemma div_zero_lit (z c : float) (mc : positive) (ec : Z) :
  Prim2SF c = S754_finite false mc ec ->
  is_zero z = true -> is_zero (PrimFloat.div z c) = true.
Proof.
  intros Hc Hz. apply is_zero_SF in Hz as [s Hz].
  unfold is_zero. rewrite eqb_spec, div_spec, Hz, Hc, zero_SF.
  destruct s; reflexivity.
Qed.

End F64Algebra.

Section MoreBinary64.
Context (m : Libm float).
Local Open Scope js_scope.

(** X11.  In binary64, when every quantity reads as zero (a blank, a
    0, text that is no number), the fittings add exactly +0 whatever
    the unit lengths are, the total equivalent length is the straight
    length, and the total drop is the friction rate times the straight
    length over 100; "is" up to the sign of a zero. *)
Theorem unused_fittings_add_nothing (s : Inputs) :
  (forall k, is_zero (toNum (fitCount s k)) = true) ->
  fittingsEq (run s) = zero /\
  F64.SameValueZero (totalEqLen (run s)) (toNum (straightLenFt s)) = true /\
  F64.SameValueZero (totalDrop (run s))
    (dpInWgPer100ft (calc s) * (toNum (straightLenFt s) / #100)) = true.
Proof.
  intros H.
  assert (Hc : forall k,
            is_zero (toNum (fitCount s k) * toNum (fitEqLen s k)) = true).
  { intros k. apply F64Algebra.mul_zero_finite; [apply H | apply toNum_finite]. }
  assert (Hf : fittingsEq (run s) = zero).
  { rewrite run_fittingsEq. cbn zeta. cbn [add lit Float64].
    change (F64.of_Q 0) with zero.
    rewrite !F64Algebra.add_zero_zero by apply Hc. reflexivity. }
  split; [exact Hf|].
  destruct (run_totals s) as [Ht Hd]. rewrite Hd, Ht, Hf.
  cbn [add mul div lit Float64].
  split; [apply F64Algebra.add_zero_r|].
  destruct (is_zero (toNum (straightLenFt s))) eqn:Hz.
  - assert (H100 : Prim2SF (F64.of_Q 100)
                   = S754_finite false 7036874417766400 (-46))
      by (vm_compute; reflexivity).
    apply F64Algebra.mul_zeros;
      apply (F64Algebra.div_zero_lit _ _ _ _ H100).
    + rewrite F64Algebra.add_comm, (F64Algebra.add_zero_zero _ Hz). reflexivity.
    + exact Hz.
  - rewrite (F64Algebra.add_zero_r_exact _ Hz). apply F64Facts.SameValueZero_refl.
Qed.

End MoreBinary64.

(** ** Binary64: the sign of the area *)

Section AreaSign.
Context (m : Libm float).
Local Open Scope js_scope.

Lemma round_area_in2_nonneg (d : float) :
  (d >? #0) = true -> F64.nonneg (Prim2SF (roundAreaIn2 d)).
Proof.
  intros Hd. apply F64Facts.positive_nonneg in Hd.
  unfold roundAreaIn2. cbn [mul div Math_PI Float64 lit].
  rewrite !mul_spec, div_spec. unfold SF64div, SF64mul.
  pose proof (F64Facts.SFdiv_lit_nonneg _ 4503599627370496 (-51) Hd) as Hr.
  change (Prim2SF (F64.of_Q 2)) with (S754_finite false 4503599627370496 (-51)).
  change (Prim2SF F64.PI) with (S754_finite false 7074237752028440 (-51)).
  revert Hr.
  generalize (SFdiv prec emax (Prim2SF d)
                (S754_finite false 4503599627370496 (-51))).
  intros r Hr.
  assert (Hp : F64.nonneg
                 (SFmul prec emax (S754_finite false 7074237752028440 (-51)) r)).
  { apply F64Facts.SFmul_nonneg; [exact I | exact Hr |].
    destruct r; exact I. }
  apply F64Facts.SFmul_nonneg; [exact Hp | exact Hr |].
  destruct r as [[|] | [|] | | [|] mr er]; try contradiction;
    try exact I.
  destruct (SFmul _ _ _ _); exact I.
Qed.

Lemma rect_area_nonneg (w h : float) :
  is_finite w = true -> is_finite h = true ->
  (w >? #0) = true -> (h >? #0) = true -> F64.nonneg (Prim2SF (w * h)).
Proof.
  intros Fw Fh Hw Hh.
  apply F64Facts.positive_nonneg in Hw, Hh.
  apply F64Facts.is_finite_SF in Fw, Fh.
  cbn [mul Float64]. rewrite mul_spec.
  apply F64Facts.SFmul_nonneg; [exact Hw | exact Hh |].
  destruct (Prim2SF w), (Prim2SF h); try contradiction; exact I.
Qed.

(** X14.  In binary64 and size-to-airflow mode the two areas are +0,
    a positive number or +Infinity whatever is typed: never negative,
    never -0 and never NaN. *)
Theorem sized_area_nonneg (s : Inputs) :
  mode s = fromSize ->
  F64.nonneg (Prim2SF (areaIn2 (calc s))) /\
  F64.nonneg (Prim2SF (areaFt2 (calc s))).
Proof.
  intros Hm.
  assert (Ha : F64.nonneg (Prim2SF (areaIn2 (calc s)))).
  { destruct (shape s) eqn:Hs.
    - destruct (calc_fromSize_round s Hm Hs) as [-> _]. cbn zeta.
      destruct (toNum (roundDia s) >? #0) eqn:Hd; [|exact I].
      apply round_area_in2_nonneg, Hd.
    - destruct (calc_fromSize_rect s Hm Hs) as [-> _]. cbn zeta.
      destruct (toNum (rectW s) >? #0) eqn:Hw; [|exact I].
      destruct (toNum (rectH s) >? #0) eqn:Hh; [|exact I].
      apply rect_area_nonneg; try assumption; apply toNum_finite. }
  split; [exact Ha|].
  rewrite calc_areaFt2. cbn [div lit Float64]. rewrite div_spec.
  change (Prim2SF (F64.of_Q 144)) with (S754_finite false 5066549580791808 (-45)).
  apply F64Facts.SFdiv_lit_nonneg, Ha.
Qed.

End AreaSign.

(** X5.  Exchanging the width and the height leaves the airflow, the
    two areas, the velocity, the equivalent round and the ideal round
    diameters the same to the bit, for every host.  (The hydraulic
    diameter is computed as 2 w h / (w + h) from the left, and is not
    always the same: see [hydraulic_diameter_sides_overflow].) *)
Theorem sides_exchanged (m : Libm float) (s : Inputs) :
  let r := calc (J := Float64 m) s in
  let r' := calc (J := Float64 m) (swap_sides s) in
  usedCfm r' = usedCfm r /\ areaIn2 r' = areaIn2 r /\
  areaFt2 r' = areaFt2 r /\ velFpm r' = velFpm r /\
  eqRound r' = eqRound r /\ idealRoundDia r' = idealRoundDia r.
Proof.
  cbn zeta.
  assert (Ha : area_and_cfm (swap_sides s) (toNum (targetFpm (swap_sides s)))
               = area_and_cfm s (toNum (targetFpm s))).
  { unfold area_and_cfm, swap_sides.
    cbn [mode shape rectW rectH roundDia cfm targetFpm setRectW setRectH].
    destruct (mode s), (shape s); try reflexivity.
    cbn [ltb mul Float64].
    rewrite (andb_comm (PrimFloat.ltb _ (toNum (rectH s)))),
            (F64Algebra.mul_comm (toNum (rectH s))). reflexivity. }
  assert (He : snd (geometry (swap_sides s)) = snd (geometry s)).
  { unfold geometry, swap_sides, equivalentRoundIn.
    cbn [mode shape rectW rectH roundDia cfm targetFpm setRectW setRectH].
    destruct (shape s); [reflexivity|]. cbn [snd leb mul add Float64].
    rewrite (orb_comm (PrimFloat.leb (toNum (rectH s)) _)),
            (F64Algebra.mul_comm (toNum (rectH s))),
            (F64Algebra.add_comm (toNum (rectH s))).
    reflexivity. }
  unfold calc. cbn [usedCfm areaIn2 areaFt2 velFpm eqRound idealRoundDia].
  rewrite Ha, He. repeat split.
Qed.

(** ** Binary64: airflow, area and velocity *)

Section Continuity.
Context (m : Libm float).
Local Open Scope js_scope.


End Continuity.

(** ** Binary64: what is never negative *)

Module F64NotNeg.
Import F64Facts.

(** The product of two numbers that are not negative is not negative. *)
Lemma mul_not_neg (x y : float) :
  PrimFloat.ltb x zero = false -> PrimFloat.ltb y zero = false ->
  PrimFloat.ltb (PrimFloat.mul x y) zero = false.
Proof.
  intros Hx Hy. destruct (PrimFloat.ltb (PrimFloat.mul x y) zero) eqn:H;
    [|reflexivity].
  apply mul_neg_cases in H as [[_ H] | [H _]]; congruence.
Qed.

(** A square is not negative. *)
Lemma square_not_neg (c x : float) :
  PrimFloat.ltb zero c = true ->
  PrimFloat.ltb (PrimFloat.mul (PrimFloat.mul c x) x) zero = false.
Proof.
  intros Hc. destruct (PrimFloat.ltb (PrimFloat.mul (PrimFloat.mul c x) x) zero)
    eqn:H; [|reflexivity].
  apply pos_not_neg in Hc as Hc'.
  apply mul_neg_cases in H as [[H1 H2] | [H1 H2]].
  - apply mul_pos_cases in H1 as [[_ H1] | [H1 _]]; [|congruence].
    apply pos_not_neg in H1. congruence.
  - apply mul_neg_cases in H1 as [[_ H1] | [H1 _]]; [|congruence].
    apply pos_not_neg in H2. congruence.
Qed.

(** A quotient by a positive number of a number that is not negative
    is not negative. *)
Lemma div_pos_not_neg (x y : float) :
  PrimFloat.ltb x zero = false -> PrimFloat.ltb zero y = true ->
  PrimFloat.ltb (PrimFloat.div x y) zero = false.
Proof.
  intros Hx Hy. destruct (PrimFloat.ltb (PrimFloat.div x y) zero) eqn:H;
    [|reflexivity].
  apply (div_neg_num _ _ H) in Hy. congruence.
Qed.

(** A positive number over a number that is zero or more, or NaN, is
    not negative. *)
Lemma div_by_nonneg_not_neg (x y : float) :
  PrimFloat.ltb zero x = true ->
  F64.nonneg (Prim2SF y) \/ is_nan y = true ->
  PrimFloat.ltb (PrimFloat.div x y) zero = false.
Proof.
  intros Hx [Hy | Hy].
  - apply div_nonneg_not_neg; [apply positive_nonneg, Hx | exact Hy].
  - rewrite ltb_SF, div_spec, zero_SF. unfold SF64div.
    unfold is_nan in Hy. rewrite eqb_spec in Hy.
    destruct (Prim2SF y) as [[|] | [|] | | [|] my ey]; cbn in Hy;
      try discriminate Hy.
    + destruct (Prim2SF x) as [[|] | [|] | | [|] mx ex]; reflexivity.
    + rewrite Z.compare_refl, Pos.compare_cont_refl in Hy. discriminate Hy.
    + rewrite Z.compare_refl, Pos.compare_cont_refl in Hy. discriminate Hy.
Qed.

(** The sum of two numbers that are not negative is not negative. *)
Lemma add_not_neg (x y : float) :
  PrimFloat.ltb x zero = false -> PrimFloat.ltb y zero = false ->
  PrimFloat.ltb (PrimFloat.add x y) zero = false.
Proof.
  rewrite !ltb_SF, add_spec, zero_SF. unfold SF64add.
  destruct (Prim2SF x) as [[|] | [|] | | [|] mx ex],
           (Prim2SF y) as [[|] | [|] | | [|] my ey];
    try (cbn; congruence).
  intros _ _. cbn [SFadd cond_Zopp]. cbn [Z.add binary_normalize].
  unfold binary_round.
  destruct (shl_align _ _ _) as [mz ez].
  pose proof (round_nonneg (Zpos mz) ez loc_Exact ltac:(lia)) as H.
  destruct (binary_round_aux _ _ _ _ _ _) as [[|] | [|] | | [|] ? ?];
    try contradiction; reflexivity.
Qed.

(** Less than 2300 and not at most 0 is positive. *)
Lemma between_positive (x c : float) :
  PrimFloat.leb x zero = false -> PrimFloat.ltb x c = true ->
  PrimFloat.ltb zero x = true.
Proof.
  rewrite leb_SF, !ltb_SF, zero_SF.
  destruct (Prim2SF x) as [[|] | [|] | | [|] mx ex]; cbn; try congruence;
    destruct (Prim2SF c) as [[|] | [|] | | [|] mc ec]; cbn; congruence.
Qed.

End F64NotNeg.

Section NotNegative.
Context (m : Libm float).
Local Open Scope js_scope.

(** The friction factor is not negative, provided the square that the
    turbulent branch takes is +0 or more, or NaN. *)
Lemma frictionFactorDarcy_not_neg (Re eps D : float) :
  (Re <? #2300) = true \/
  F64.nonneg
    (Prim2SF
       (Math_pow (Math_log10 (eps / (#3.7 * D) + #5.74 / Math_pow Re #0.9)) #2)) \/
  is_nan
    (Math_pow (Math_log10 (eps / (#3.7 * D) + #5.74 / Math_pow Re #0.9)) #2)
  = true ->
  (frictionFactorDarcy Re eps D <? #0) = false.
Proof.
  intros H. unfold frictionFactorDarcy.
  destruct ((Re <=? #0) || (D <=? #0)) eqn:G; [vm_compute; reflexivity|].
  apply orb_false_elim in G as [G _].
  cbn [ltb leb lit div Float64] in *. change (F64.of_Q 0) with zero in *.
  destruct (PrimFloat.ltb Re (F64.of_Q 2300)) eqn:L.
  - apply F64NotNeg.div_pos_not_neg; [vm_compute; reflexivity|].
    exact (F64NotNeg.between_positive _ _ G L).
  - destruct H as [H | H]; [discriminate H|].
    apply F64NotNeg.div_by_nonneg_not_neg; [vm_compute; reflexivity|].
    exact H.
Qed.

(** X9.  In binary64 the friction rate is never negative (it can be
    NaN or +Infinity), provided the flow is below Re = 2300 or the
    square that the host's [Math.pow] returns in the turbulent branch
    is +0 or more, or NaN, as the square of a number is.  When the
    straight length, the quantities and the unit lengths read as
    numbers that are not negative, neither are the equivalent lengths
    and the total drop. *)
Theorem pressure_loss_nonneg (s : Inputs) :
  (calc_Re s <? #2300) = true \/
  F64.nonneg
    (Prim2SF
       (Math_pow
          (Math_log10
             (roughness (material s) / (#3.7 * calc_D s)
              + #5.74 / Math_pow (calc_Re s) #0.9)) #2)) \/
  is_nan
    (Math_pow
       (Math_log10
          (roughness (material s) / (#3.7 * calc_D s)
           + #5.74 / Math_pow (calc_Re s) #0.9)) #2) = true ->
  (dpInWgPer100ft (calc s) <? #0) = false /\
  ((toNum (straightLenFt s) <? #0) = false ->
   (forall k, (toNum (fitCount s k) <? #0) = false) ->
   (forall k, (toNum (fitEqLen s k) <? #0) = false) ->
   (fittingsEq (run s) <? #0) = false /\
   (totalEqLen (run s) <? #0) = false /\
   (totalDrop (run s) <? #0) = false).
Proof.
  intros H.
  pose proof (frictionFactorDarcy_not_neg _ _ _ H) as Hf.
  assert (Hdp : (dpInWgPer100ft (calc s) <? #0) = false).
  { rewrite calc_dp. unfold paToInWg, ftToM.
    cbn [ltb lit mul div Float64] in *. change (F64.of_Q 0) with zero in *.
    apply F64NotNeg.div_pos_not_neg; [|vm_compute; reflexivity].
    destruct (PrimFloat.ltb zero (calc_D s)) eqn:HD; [|vm_compute; reflexivity].
    apply F64NotNeg.mul_not_neg; [apply F64NotNeg.mul_not_neg; [exact Hf|]|].
    - apply F64NotNeg.div_pos_not_neg; [vm_compute; reflexivity | exact HD].
    - apply F64NotNeg.div_pos_not_neg; [|vm_compute; reflexivity].
      apply F64NotNeg.square_not_neg. vm_compute. reflexivity. }
  split; [exact Hdp|].
  intros Hl Hc He.
  assert (Hp : forall k,
            (toNum (fitCount s k) * toNum (fitEqLen s k) <? #0) = false).
  { intros k. cbn [ltb lit mul Float64] in *.
    change (F64.of_Q 0) with zero in *.
    apply F64NotNeg.mul_not_neg; [apply Hc | apply He]. }
  assert (Hfit : (fittingsEq (run s) <? #0) = false).
  { rewrite run_fittingsEq. cbn zeta.
    cbn [ltb lit add mul Float64] in *. change (F64.of_Q 0) with zero in *.
    repeat (apply F64NotNeg.add_not_neg; [|apply Hp]).
    vm_compute. reflexivity. }
  destruct (run_totals s) as [Ht Hd].
  assert (Htot : (totalEqLen (run s) <? #0) = false).
  { rewrite Ht. cbn [ltb lit add Float64] in *.
    change (F64.of_Q 0) with zero in *.
    apply F64NotNeg.add_not_neg; assumption. }
  split; [exact Hfit|]. split; [exact Htot|].
  rewrite Hd. cbn [ltb lit mul div Float64] in *.
  change (F64.of_Q 0) with zero in *.
  apply F64NotNeg.mul_not_neg; [exact Hdp|].
  apply F64NotNeg.div_pos_not_neg; [exact Htot | vm_compute; reflexivity].
Qed.

End NotNegative.

(** ** The further properties at concrete inputs *)

Section MoreInstances.
Local Open Scope js_scope.
#[local] Existing Instance libm64.

(** X1 at the defaults, a round duct sized from its diameter: the
    airflow, the width and the height are not on the page, and other
    text in them leaves the results as they are. *)
Lemma hidden_boxes_ignored_witness :
  calc (setCfm "1" (setRectH "99" (setRectW "abc" initial))) = calc initial.
Proof.
  apply hidden_boxes_ignored; try reflexivity.
  intros b; destruct b; cbn; intros H; try reflexivity; discriminate H.
Defined.

(** X2 at the defaults: another straight length leaves [calc], and
    other text in the width and the airflow boxes, which a round duct
    sized from its diameter does not read, leaves [run]. *)
Lemma memo_dependencies_complete_witness :
  calc (setStraightLenFt "51" initial) = calc initial /\
  run (setRectW "3" (setCfm "1" initial)) = run initial.
Proof.
  split.
  - apply (proj1 (memo_dependencies_complete initial
                    (setStraightLenFt "51" initial))); reflexivity.
  - apply (proj2 (memo_dependencies_complete initial
                    (setRectW "3" (setCfm "1" initial)))); reflexivity.
Defined.

(** X8 at 10 FPM through the default duct, where the Reynolds number
    is about 855. *)
Lemma laminar_ignores_material_witness :
  calc (setMaterial flex (setTargetFpm "10" initial))
  = calc (setTargetFpm "10" initial).
Proof.
  apply laminar_ignores_material. vm_compute. reflexivity.
Defined.

(** X11 at the defaults with the elbows blanked and the boot counted
    as "none". *)
Lemma unused_fittings_add_nothing_witness :
  fittingsEq
    (run (setFitCount elbow90 "" (setFitCount boot "none" initial))) = zero /\
  F64.SameValueZero
    (totalEqLen
       (run (setFitCount elbow90 "" (setFitCount boot "none" initial))))
    (toNum
       (straightLenFt
          (setFitCount elbow90 "" (setFitCount boot "none" initial)))) = true /\
  F64.SameValueZero
    (totalDrop
       (run (setFitCount elbow90 "" (setFitCount boot "none" initial))))
    (dpInWgPer100ft
       (calc (setFitCount elbow90 "" (setFitCount boot "none" initial)))
     * (toNum
          (straightLenFt
             (setFitCount elbow90 "" (setFitCount boot "none" initial)))
        / #100)) = true.
Proof.
  apply (unused_fittings_add_nothing libm64).
  intros k; destruct k; vm_compute; reflexivity.
Defined.

(** X12 at the defaults in airflow-to-size mode: a diameter of 20 in
    instead of 10 in leaves the airflow and the area as they are. *)
Lemma airflow_mode_reads_witness :
  usedCfm (calc (setRoundDia "20" (setMode fromCfm initial)))
  = usedCfm (calc (setMode fromCfm initial)) /\
  areaIn2 (calc (setRoundDia "20" (setMode fromCfm initial)))
  = areaIn2 (calc (setMode fromCfm initial)).
Proof.
  destruct (airflow_mode_reads (setMode fromCfm initial)
              (setRoundDia "20" (setMode fromCfm initial)) eq_refl eq_refl)
    as [H _].
  destruct (H eq_refl eq_refl) as (Hq & Ha & _). split; assumption.
Defined.

(** X13 at the defaults: three boots leave the two elbows. *)
Lemma fitting_cell_update_witness :
  fitCount (setFitCount boot "3" initial) boot = "3" /\
  fitCount (setFitCount boot "3" initial) elbow90 = fitCount initial elbow90.
Proof.
  destruct (fitting_cell_update initial boot "3") as (H & _ & H' & _).
  split; [exact H|].
  apply (H' elbow90). intros E. discriminate E.
Defined.

(** X14 at the defaults, and in airflow-to-size mode, which the
    theorem leaves out: there a negative airflow gives a negative
    area. *)
Lemma sized_area_nonneg_witness :
  F64.nonneg (Prim2SF (areaIn2 (calc initial))) /\
  F64.nonneg (Prim2SF (areaFt2 (calc initial))).
Proof. apply (sized_area_nonneg libm64 initial). reflexivity. Defined.

Example airflow_mode_area_negative :
  areaIn2 (calc (setCfm "-700" (setMode fromCfm initial))) = (-144)%float.
Proof. vm_compute. reflexivity. Qed.


(** X9 at the defaults, where the flow is turbulent and the square is
    positive. *)
Lemma pressure_loss_nonneg_witness :
  (dpInWgPer100ft (calc initial) <? #0) = false /\
  (fittingsEq (run initial) <? #0) = false /\
  (totalEqLen (run initial) <? #0) = false /\
  (totalDrop (run initial) <? #0) = false.
Proof.
  destruct (pressure_loss_nonneg libm64 initial) as [Hdp Hrun].
  { right; left. vm_compute. exact I. }
  split; [exact Hdp|].
  apply Hrun.
  - vm_compute. reflexivity.
  - intros k; destruct k; vm_compute; reflexivity.
  - intros k; destruct k; vm_compute; reflexivity.
Defined.

(** In binary64 the hydraulic diameter is not the same with the sides
    exchanged once [2 * w] overflows: 1e308 in by 0.25 in. *)
Example hydraulic_diameter_sides_overflow :
  let s := setRectH "0.25" (setRectW "1e308" (setShape rect initial)) in
  (Dh_in (calc s), Dh_in (calc (swap_sides s))) = (infinity, 0.5%float).
Proof. vm_compute. reflexivity. Qed.

(** At 10 FPM through the default duct the flow is laminar, and the
    three materials give the same friction rate. *)
Example laminar_defaults_by_material :
  map (fun mat => dpInWgPer100ft
                    (calc (setMaterial mat (setTargetFpm "10" initial))))
      [galv; pvc; flex]
  = [5.5806582309721805e-05; 5.5806582309721805e-05;
     5.5806582309721805e-05]%float.
Proof. vm_compute. reflexivity. Qed.

End MoreInstances.

